(** * certify: the Vault (synchronous) issuer, [issuers/vault/vault.go]

    A shallow embedding of [Issuer], [FromClient], [connect], [Issue] and
    [signCSR].  Go values are modelled as the code has them:

    - [*T] pointers that the code compares with [nil] are [option T];
    - [interface{}] values decoded from JSON are the inductive [value],
      and a failed type assertion is a panic;
    - [map[string]interface{}] is a [gmap string value];
    - [[]byte] and [string] are both [string] (the conversions between
      them copy the bytes unchanged);
    - a method with a pointer receiver runs in a state monad over the
      issuer it points to; a panic aborts the run and keeps the state.

    Functions of other packages (the Vault API client, the CSR builder,
    [crypto/tls], [crypto/x509], [encoding/pem], [encoding/json]) are the
    fields of an environment record [Env]; the calls to [api.NewClient],
    [RawRequestWithContext] and [tls.X509KeyPair] are also recorded in a
    trace, so that what a run asked of the outside can be stated.

    After the sequential code come an interleaving model of concurrent
    first calls of [Issue], the asynchronous issuer and the certificate
    assembler as the specification describes them, and a test double of
    the environment on which the code is run in the examples. *)

From Stdlib Require Import ZArith Ascii String List Lia.
From stdpp Require Import base option list strings gmap fin_maps.

Open Scope string_scope.
Open Scope Z_scope.
Open Scope list_scope.

(** ** Go runtime values *)

(** [error]: the sentinel [io.EOF] is told apart from every other error
    value by the [switch parseErr] of [signCSR]. *)
Inductive error : Type :=
| io_EOF
| errorString (msg : string).

(** Run-time panics the code can raise. *)
Inductive panic : Type :=
| NilDereference      (* invalid memory address or nil pointer dereference *)
| InterfaceConversion (* x.(T) on a value whose dynamic type is not T *)
| IndexOutOfRange.    (* s[i] with i >= len(s) *)

Inductive outcome (A : Type) : Type :=
| Returned (a : A)
| Panicked (p : panic).
Arguments Returned {A} a.
Arguments Panicked {A} p.

(** [context.Context]: only handed on to the transport. *)
Inductive context : Type :=
| ctx_Background
| ctx_WithDeadline (unixNano : Z)
| ctx_Canceled.

(** [interface{}] as [encoding/json] fills it in. *)
#[local] Set Warnings "-register-all".
Inductive value : Type :=
| VNil
| VBool (b : bool)
| VNumber (n : Z)
| VString (s : string)
| VSlice (l : list value)
| VObject (fields : list (string * value)).
#[local] Set Warnings "register-all".

(** The line-feed byte. *)
Definition newline : string := String (ascii_of_nat 10) EmptyString.

(** [x.(string)] where [x] is the result of a map index: a missing key
    yields the nil interface, whose assertion panics as well. *)
Definition assert_string (x : option value) : outcome string :=
  match x with
  | Some (VString s) => Returned s
  | _ => Panicked InterfaceConversion
  end.

(** [x.([]interface{})] *)
Definition assert_slice (x : value) : outcome (list value) :=
  match x with
  | VSlice l => Returned l
  | _ => Panicked InterfaceConversion
  end.

(** ** The request options of the sign call

    [csrOpts] and [ttl] are declared in the package outside [vault.go];
    the fields are those of the composite literal in [Issue]. *)
Inductive ttl_t : Type := ttl (d : Z).

Module Opts.
Record csrOpts : Type := {
  CSR : string;
  CommonName : string;
  ExcludeCNFromSANS : bool;
  Format : string;
  OtherSans : list string;
  TimeToLive : ttl_t }.
End Opts.
Abbreviation csrOpts := Opts.csrOpts.

(** ** [crypto/tls] and [crypto/x509] data *)

Module x509.
Record certificate : Type := {
  Raw : string;
  SubjectCommonName : string;
  DNSNames : list string;
  IPAddresses : list string;
  NotBefore : Z;
  NotAfter : Z;
  IssuerSerialNumber : string;
  PublicKey : string }.
End x509.

Module tls.
(** [tls.Config], as far as [connect] touches it: it is cloned. *)
Record config : Type := {
  ServerName : string;
  RootCAs : list string;
  InsecureSkipVerify : bool }.

Definition Clone (c : config) : config :=
  {| ServerName := ServerName c; RootCAs := RootCAs c;
     InsecureSkipVerify := InsecureSkipVerify c |}.

(** [tls.Certificate]: the DER chain, the private key and the parsed leaf. *)
Record certificate : Type := {
  Certificate : list string;
  PrivateKey : string;
  Leaf : option x509.certificate }.

Definition with_Leaf (c : certificate) (l : option x509.certificate) : certificate :=
  {| Certificate := Certificate c; PrivateKey := PrivateKey c; Leaf := l |}.
End tls.

(** ** The Vault API client, [github.com/hashicorp/vault/api] *)

Module api.
Record Config : Type := {
  Address : string;
  TLSClientConfig : option tls.config }.

Definition with_TLSClientConfig (c : Config) (t : option tls.config) : Config :=
  {| Address := Address c; TLSClientConfig := t |}.
Definition with_Address (c : Config) (a : string) : Config :=
  {| Address := a; TLSClientConfig := TLSClientConfig c |}.

Record Client : Type := {
  addr : string;
  token : string;
  transport : option tls.config }.

(** [c.SetToken(v)] *)
Definition SetToken (c : Client) (v : string) : Client :=
  {| addr := addr c; token := v; transport := transport c |}.

Record Secret : Type := {
  Warnings : list string;
  Data : gmap string value }.

Record Request : Type := {
  Method : string;
  Host : string;
  Path : string;
  ClientToken : string;
  Obj : option csrOpts;
  BodyBytes : string }.

(** [c.NewRequest(method, requestPath)] *)
Definition NewRequest (c : Client) (method requestPath : string) : Request :=
  {| Method := method; Host := addr c; Path := requestPath;
     ClientToken := token c; Obj := None; BodyBytes := "" |}.

(** [resp.Body] is a stream: the field holds what has not been read yet. *)
Record Response : Type := {
  StatusCode : Z;
  Body : string }.

Definition with_Body (r : Response) (b : string) : Response :=
  {| StatusCode := StatusCode r; Body := b |}.
End api.

(** ** The issuer *)

Record Issuer : Type := {
  URL : option string;          (* *url.URL, by its String() rendering *)
  Token : string;
  Mount : string;
  Role : string;
  TLSConfig : option tls.config;
  TimeToLive : Z;               (* time.Duration, in nanoseconds *)
  OtherSubjectAlternativeNames : list string;
  cli : option api.Client }.

Definition with_cli (v : Issuer) (c : option api.Client) : Issuer :=
  {| URL := URL v; Token := Token v; Mount := Mount v; Role := Role v;
     TLSConfig := TLSConfig v; TimeToLive := TimeToLive v;
     OtherSubjectAlternativeNames := OtherSubjectAlternativeNames v;
     cli := c |}.

(** [certify.CertConfig], the logical certificate specification handed
    to the CSR builder. *)
Record CertConfig : Type := {
  SubjectAlternativeNames : list string;
  IPSubjectAlternativeNames : list string;
  KeyGenerator : option string }.

(** ** The environment: functions of other packages *)

Record Env : Type := {
  api_DefaultConfig : api.Config;
  api_NewClient : api.Config -> api.Client + error;
  csr_FromCertConfig : string -> option CertConfig -> (string * string) + error;
  json_Marshal : csrOpts -> string + error;
  api_RawRequestWithContext :
    api.Client -> context -> api.Request -> option api.Response * option error;
  (* reads from the stream; returns what is left of it *)
  api_ParseSecret : string -> (option api.Secret * option error) * string;
  tls_X509KeyPair : string -> string -> tls.certificate + error;
  x509_ParseCertificate : string -> x509.certificate + error;
  (* the DER bytes of the CERTIFICATE blocks of a PEM text, in order *)
  pem_Certificates : string -> list string;
  x509_ParsePrivateKey : string -> string + error;
  (* the private key belongs to the certificate's public key *)
  key_matches : string -> x509.certificate -> bool }.

(** ** State, trace and the monad of a method call *)

Inductive event : Type :=
| Dial (conf : api.Config)                    (* api.NewClient(conf) *)
| Send (r : api.Request)                      (* RawRequestWithContext(ctx, r) *)
| Pair (certPEMBlock keyPEMBlock : string).   (* tls.X509KeyPair(cert, key) *)

Record World : Type := {
  self : Issuer;        (* the issuer the receiver points to *)
  trace : list event }. (* calls made so far, oldest first *)

Definition M (A : Type) : Type := World -> outcome A * World.

Definition ret {A} (a : A) : M A := fun w => (Returned a, w).

Definition bind {A B} (m : M A) (k : A -> M B) : M B :=
  fun w => match m w with
           | (Returned a, w') => k a w'
           | (Panicked p, w') => (Panicked p, w')
           end.

Definition lift {A} (o : outcome A) : M A := fun w => (o, w).

Definition get_self : M Issuer := fun w => (Returned (self w), w).

Definition set_cli (c : option api.Client) : M unit :=
  fun w => (Returned tt, {| self := with_cli (self w) c; trace := trace w |}).

Definition emit (e : event) : M unit :=
  fun w => (Returned tt, {| self := self w; trace := trace w ++ [e] |}).

Declare Scope go_scope.
Delimit Scope go_scope with go.
Notation "x <- m ;; k" := (bind m (fun x => k))
  (at level 100, m at next level, right associativity) : go_scope.
Notation "m ;; k" := (bind m (fun _ => k))
  (at level 100, right associativity) : go_scope.
Open Scope go_scope.

(** ** Package vault *)

Section Vault.
Context (E : Env).

(** [FromClient(v, role)] *)
Definition FromClient (v : option api.Client) (role : string) : Issuer :=
  {| URL := None; Token := ""; Mount := ""; Role := role; TLSConfig := None;
     TimeToLive := 0; OtherSubjectAlternativeNames := []; cli := v |}.

(** [v.URL.String()]: the method reads through the pointer. *)
Definition URL_String (u : option string) : outcome string :=
  match u with
  | Some s => Returned s
  | None => Panicked NilDereference
  end.

(** [api.NewClient(conf)], recorded in the trace. *)
Definition NewClient (conf : api.Config) : M (api.Client + error) :=
  emit (Dial conf) ;; ret (api_NewClient E conf).

(** [func (v *Issuer) connect(ctx) error] *)
Definition connect (ctx : context) : M (option error) :=
  v <- get_self ;;
  let vConf := api_DefaultConfig E in
  let vConf :=
    match TLSConfig v with
    | Some t => api.with_TLSClientConfig vConf (Some (tls.Clone t))
    | None => vConf
    end in
  address <- lift (URL_String (URL v)) ;;
  let vConf := api.with_Address vConf address in
  r <- NewClient vConf ;;
  match r with
  | inr err => set_cli None ;; ret (Some err)
  | inl c =>
      set_cli (Some c) ;;
      set_cli (Some (api.SetToken c (Token v))) ;;
      ret None
  end.

(** [r.SetJSONBody(val)] *)
Definition SetJSONBody (r : api.Request) (val : csrOpts) : api.Request * option error :=
  match json_Marshal E val with
  | inr err => (r, Some err)
  | inl buf =>
      ({| api.Method := api.Method r; api.Host := api.Host r;
          api.Path := api.Path r; api.ClientToken := api.ClientToken r;
          api.Obj := Some val; api.BodyBytes := buf |}, None)
  end.

(** [c.RawRequestWithContext(ctx, r)], recorded in the trace. *)
Definition RawRequestWithContext (c : api.Client) (ctx : context) (r : api.Request)
  : M (option api.Response * option error) :=
  emit (Send r) ;; ret (api_RawRequestWithContext E c ctx r).

(** [secret != nil && (len(secret.Warnings) > 0 || len(secret.Data) > 0)] *)
Definition has_warnings_or_data (secret : option api.Secret) : bool :=
  match secret with
  | None => false
  | Some s =>
      (0 <? Z.of_nat (length (api.Warnings s))) || (0 <? Z.of_nat (size (api.Data s)))
  end.

(** [func (v Issuer) signCSR(ctx, opts)], returning a secret pointer and
    an error; the receiver is a copy of the issuer.
    [defer resp.Body.Close()] has no effect on the result. *)
Definition signCSR (v : Issuer) (ctx : context) (opts : csrOpts)
  : M (option api.Secret * option error) :=
  let pkiMountName := "pki" in
  let pkiMountName := if decide (Mount v <> "") then Mount v else pkiMountName in
  match cli v with
  | None => lift (Panicked NilDereference)
  | Some c =>
  let r := api.NewRequest c "PUT" ("/v1/" +:+ pkiMountName +:+ "/sign/" +:+ Role v) in
  match SetJSONBody r opts with
  | (_, Some err) => ret (None, Some err)
  | (r, None) =>
  x <- RawRequestWithContext c ctx r ;;
  let '(resp, err) := x in
  (* lines 154-158 *)
  let rest (resp : option api.Response) : M (option api.Secret * option error) :=
    match err with
    | Some e => ret (None, Some e)
    | None =>
        match resp with
        | None => lift (Panicked NilDereference)
        | Some rsp => ret (fst (api_ParseSecret E (api.Body rsp)))
        end
    end in
  match resp with
  | Some rsp =>
      if api.StatusCode rsp =? 404 then
        let '((secret, parseErr), unread) := api_ParseSecret E (api.Body rsp) in
        match parseErr with
        | None =>
            if has_warnings_or_data secret then ret (secret, err)
            else rest (Some (api.with_Body rsp unread))
        | Some io_EOF => ret (None, None)
        | Some _ => ret (None, err)
        end
      else rest resp
  | None => rest resp
  end
  end
  end.

(** The loop of lines 109-111:
    [caChainPEM = append(append(caChainPEM, LF), []byte(pemData.(string))...)] *)
Fixpoint append_chain (caChainPEM : string) (caChain : list value) : outcome string :=
  match caChain with
  | [] => Returned caChainPEM
  | pemData :: more =>
      match assert_string (Some pemData) with
      | Returned s => append_chain ((caChainPEM +:+ newline) +:+ s) more
      | Panicked p => Panicked p
      end
  end.

(** [tls.X509KeyPair(certPEMBlock, keyPEMBlock)], recorded in the trace. *)
Definition X509KeyPair (certPEMBlock keyPEMBlock : string) : M (tls.certificate + error) :=
  emit (Pair certPEMBlock keyPEMBlock) ;;
  ret (tls_X509KeyPair E certPEMBlock keyPEMBlock).

(** [s[0]] *)
Definition index0 {A} (s : list A) : outcome A :=
  match s with
  | x :: _ => Returned x
  | [] => Panicked IndexOutOfRange
  end.

(** [x509.ParseCertificate] returns a nil certificate with its error. *)
Definition ParseCertificate (der : string) : option x509.certificate :=
  match x509_ParseCertificate E der with
  | inl c => Some c
  | inr _ => None
  end.

(** [func (v *Issuer) Issue(ctx, commonName, conf)], returning a
    certificate pointer and an error. *)
Definition Issue (ctx : context) (commonName : string) (conf : option CertConfig)
  : M (option tls.certificate * option error) :=
  v <- get_self ;;
  err <- match cli v with
         | None => connect ctx
         | Some _ => ret None
         end ;;
  match err with
  | Some e => ret (None, Some e)
  | None =>
  match csr_FromCertConfig E commonName conf with
  | inr e => ret (None, Some e)
  | inl (csrPEM, keyPEM) =>
  v <- get_self ;;
  let opts :=
    {| Opts.CSR := csrPEM;
       Opts.CommonName := commonName;
       Opts.ExcludeCNFromSANS := true;
       Opts.Format := "pem";
       Opts.OtherSans := OtherSubjectAlternativeNames v;
       Opts.TimeToLive := ttl (TimeToLive v) |} in
  x <- signCSR v ctx opts ;;
  let '(secret, err) := x in
  match err with
  | Some e => ret (None, Some e)
  | None =>
  match secret with
  | None => lift (Panicked NilDereference)          (* secret.Data *)
  | Some secret =>
  certPEM <- lift (assert_string (api.Data secret !! "certificate")) ;;
  let caChainPEM := certPEM in
  caChainPEM <-
    match api.Data secret !! "ca_chain" with
    | Some caChain =>
        l <- lift (assert_slice caChain) ;;
        lift (append_chain caChainPEM l)
    | None =>
        match api.Data secret !! "issuing_ca" with
        | Some ca =>
            ca <- lift (assert_string (Some ca)) ;;
            ret ((caChainPEM +:+ newline) +:+ ca)
        | None => ret caChainPEM
        end
    end ;;
  r <- X509KeyPair caChainPEM keyPEM ;;
  match r with
  | inr e => ret (None, Some e)
  | inl tlsCert =>
      der <- lift (index0 (tls.Certificate tlsCert)) ;;
      ret (Some (tls.with_Leaf tlsCert (ParseCertificate der)), None)
  end
  end
  end
  end
  end.

End Vault.

(** ** Contracts of the library functions the claims rely on *)

(** [tls.X509KeyPair] returns the CERTIFICATE blocks of its first
    argument, in the order they appear. *)
Definition X509KeyPair_keeps_chain (E : Env) : Prop :=
  forall certPEMBlock keyPEMBlock c,
    tls_X509KeyPair E certPEMBlock keyPEMBlock = inl c ->
    tls.Certificate c = pem_Certificates E certPEMBlock.

(** [tls.X509KeyPair] succeeds only if the first certificate parses and
    its public key belongs to the private key it returns. *)
Definition X509KeyPair_checks_pair (E : Env) : Prop :=
  forall certPEMBlock keyPEMBlock c,
    tls_X509KeyPair E certPEMBlock keyPEMBlock = inl c ->
    exists der more leaf,
      tls.Certificate c = der :: more /\
      x509_ParseCertificate E der = inl leaf /\
      key_matches E (tls.PrivateKey c) leaf = true.

(** The private key [tls.X509KeyPair] returns is the parse of its second
    argument. *)
Definition X509KeyPair_keeps_key (E : Env) : Prop :=
  forall certPEMBlock keyPEMBlock c,
    tls_X509KeyPair E certPEMBlock keyPEMBlock = inl c ->
    x509_ParsePrivateKey E keyPEMBlock = inl (tls.PrivateKey c).

(** [text] is the PEM encoding of exactly the certificate [der], and
    stays so in front of a line feed and more text. *)
Definition pem_single (E : Env) (text der : string) : Prop :=
  pem_Certificates E text = [der] /\
  forall more, pem_Certificates E (text +:+ newline +:+ more)
               = der :: pem_Certificates E more.

(** ** The chain-resolution policy in the spec's words

    (a) an explicit sequence of chain entries: the leaf followed by each
    entry in the order returned; (b) else a single issuing-CA field: the
    leaf and the issuing CA; (c) else the leaf only. *)
Definition as_string (x : value) : option string :=
  match x with VString s => Some s | _ => None end.

Definition as_strings (x : value) : option (list string) :=
  match x with
  | VSlice l => mapM as_string l
  | _ => None
  end.

Definition chain_resolution (response : gmap string value) : option (list string) :=
  leaf ← response !! "certificate" ≫= as_string;
  match response !! "ca_chain" with
  | Some entries => (fun es => leaf :: es) <$> as_strings entries
  | None =>
      match response !! "issuing_ca" with
      | Some ca => (fun i => [leaf; i]) <$> as_string ca
      | None => Some [leaf]
      end
  end.

(** The PEM text of a chain: its entries, a line feed between them. *)
Fixpoint join_pem (entries : list string) : string :=
  match entries with
  | [] => ""
  | [e] => e
  | e :: more => e +:+ newline +:+ join_pem more
  end.

(** ** Issue calls run one after another *)

Record call : Type := {
  call_ctx : context;
  call_commonName : string;
  call_conf : option CertConfig }.

Definition run_call (E : Env) (c : call) (w : World) : World :=
  snd (Issue E (call_ctx c) (call_commonName c) (call_conf c) w).

Definition run_calls (E : Env) (calls : list call) (w : World) : World :=
  fold_left (fun w c => run_call E c w) calls w.

Definition is_Dial (e : event) : bool :=
  match e with Dial _ => true | _ => false end.

Definition dials (w : World) : nat := length (List.filter is_Dial (trace w)).

(** ** Concurrent first calls

    The part of [Issue] that touches the shared issuer, cut at its reads
    and writes of [v.cli]: the nil check of line 79, the dial and the
    assignment of line 67, [SetToken] through [v.cli] on line 72, and
    the copy of the issuer taken for [signCSR] on line 100.  A schedule
    names the goroutine that takes the next step. *)

Inductive loc : Type :=
| at_check                    (* line 79 *)
| at_dial                     (* lines 59-67 *)
| at_set_token                (* line 72 *)
| at_sign                     (* line 100 *)
| signing (c : api.Client)    (* inside signCSR, with this session *)
| failed (e : error)          (* returned nil, err *)
| crashed (p : panic).

Definition thread_step (E : Env) (l : loc) (w : World) : loc * World :=
  match l with
  | at_check =>
      match cli (self w) with
      | None => (at_dial, w)
      | Some _ => (at_sign, w)
      end
  | at_dial =>
      let v := self w in
      let vConf := api_DefaultConfig E in
      let vConf :=
        match TLSConfig v with
        | Some t => api.with_TLSClientConfig vConf (Some (tls.Clone t))
        | None => vConf
        end in
      match URL v with
      | None => (crashed NilDereference, w)
      | Some address =>
          let vConf := api.with_Address vConf address in
          let tr := trace w ++ [Dial vConf] in
          match api_NewClient E vConf with
          | inr err => (failed err, {| self := with_cli v None; trace := tr |})
          | inl c => (at_set_token, {| self := with_cli v (Some c); trace := tr |})
          end
      end
  | at_set_token =>
      match cli (self w) with
      | None => (crashed NilDereference, w)
      | Some c =>
          (at_sign,
           {| self := with_cli (self w) (Some (api.SetToken c (Token (self w))));
              trace := trace w |})
      end
  | at_sign =>
      match cli (self w) with
      | None => (crashed NilDereference, w)
      | Some c => (signing c, w)
      end
  | signing _ | failed _ | crashed _ => (l, w)
  end.

Record system : Type := {
  shared : World;
  threads : list loc }.

Definition sched_step (E : Env) (s : system) (i : nat) : system :=
  match threads s !! i with
  | None => s
  | Some l =>
      let '(l', w') := thread_step E l (shared s) in
      {| shared := w'; threads := <[i := l']> (threads s) |}
  end.

Definition run_schedule (E : Env) (schedule : list nat) (s : system) : system :=
  fold_left (sched_step E) schedule s.

(** [n] goroutines entering [Issue] on the same issuer. *)
Definition first_calls (n : nat) (w : World) : system :=
  {| shared := w; threads := replicate n at_check |}.

(** ** The asynchronous issuer and the certificate assembler

    The source of the asynchronous (AWS) issuer is not part of the files
    at hand; only its test is. *)

Module aws.

Inductive failure : Type :=
| CSRBuildError (e : error)
| TransportError (e : error)
| CAProtocolError
| IssuanceDeniedError
| TimeoutError
| PairingError.

Inductive waited : Type :=
| Issued
| Denied
| Expired.

(** The three operations of the asynchronous wire contract. *)
Record Client : Type := {
  IssueCertificate : string -> string -> Z -> string -> string + error;
  WaitUntilCertificateIssued : context -> string -> string -> waited;
  GetCertificate : string -> string -> (string * string) + error }.

Record Issuer : Type := {
  CertificateAuthorityARN : string;
  TimeToLive : Z;
  SigningAlgorithm : string;
  Client_ : Client }.

Section Spec.
Context (E : Env).

(** Modelled from the spec: the Certificate Assembler of section 4.3,
    whose source is missing.  It validates that the private key and the
    leaf's public key pair (a mismatch is a PairingError), parses the
    leaf from the chain's first entry and attaches it, and keeps the
    chain in the order supplied. *)
Definition Assemble (chainPEMBytes privateKeyPEMBytes : string)
  : tls.certificate + failure :=
  match pem_Certificates E chainPEMBytes with
  | [] => inr CAProtocolError
  | first :: more =>
      match x509_ParseCertificate E first, x509_ParsePrivateKey E privateKeyPEMBytes with
      | inl leaf, inl key =>
          if key_matches E key leaf
          then inl {| tls.Certificate := first :: more;
                      tls.PrivateKey := key;
                      tls.Leaf := Some leaf |}
          else inr PairingError
      | _, _ => inr CAProtocolError
      end
  end.

(** Modelled from the spec: [Issue] of the asynchronous issuer, section
    4.2, whose source is missing: build the CSR and key, submit, wait
    until issued (a cancelled or expired context is a timeout and ends
    the call, a denial is an issuance-denied error), fetch the leaf and
    the chain, and assemble leaf and chain with the key. *)
Definition Issue (i : Issuer) (ctx : context) (commonName : string)
  (conf : option CertConfig) : tls.certificate + failure :=
  match csr_FromCertConfig E commonName conf with
  | inr e => inr (CSRBuildError e)
  | inl (csrPEM, keyPEM) =>
      let ca := CertificateAuthorityARN i in
      match IssueCertificate (Client_ i) ca csrPEM (TimeToLive i) (SigningAlgorithm i) with
      | inr e => inr (TransportError e)
      | inl handle =>
          match WaitUntilCertificateIssued (Client_ i) ctx ca handle with
          | Expired => inr TimeoutError
          | Denied => inr IssuanceDeniedError
          | Issued =>
              match GetCertificate (Client_ i) ca handle with
              | inr e => inr (TransportError e)
              | inl (leafPEM, chainPEM) =>
                  Assemble (leafPEM +:+ newline +:+ chainPEM) keyPEM
              end
          end
      end
  end.

End Spec.
End aws.

(** ** A test double of the environment

    A miniature CA used to run the code on concrete inputs.  A PEM text
    is a sequence of lines, each non-empty line one certificate whose
    DER bytes are the line itself; a certificate's public key is its
    text, and it belongs to the private key of the same text.  The CSR
    builder hands out the common name as the key.  The sign endpoint
    answers by role. *)

Module double.

Fixpoint lines_from (acc s : string) : list string :=
  match s with
  | EmptyString => if String.eqb acc "" then [] else [acc]
  | String c s' =>
      if Ascii.eqb c (ascii_of_nat 10)
      then (if String.eqb acc "" then lines_from "" s' else acc :: lines_from "" s')
      else lines_from (acc +:+ String c EmptyString) s'
  end.

Definition lines (s : string) : list string := lines_from "" s.

Definition parse (der : string) : x509.certificate :=
  {| x509.Raw := der; x509.SubjectCommonName := der; x509.DNSNames := [];
     x509.IPAddresses := []; x509.NotBefore := 0; x509.NotAfter := 86400;
     x509.IssuerSerialNumber := "1"; x509.PublicKey := der |}.

Definition matches (key : string) (c : x509.certificate) : bool :=
  String.eqb key (x509.PublicKey c).

Definition X509KeyPair (certPEMBlock keyPEMBlock : string) : tls.certificate + error :=
  match lines certPEMBlock with
  | [] => inr (errorString "tls: failed to find any PEM data in certificate input")
  | der :: more =>
      if matches keyPEMBlock (parse der)
      then inl {| tls.Certificate := der :: more; tls.PrivateKey := keyPEMBlock;
                  tls.Leaf := None |}
      else inr (errorString "tls: private key does not match public key")
  end.

Definition leaf_pem : string := "somename.com".
Definition ca_pem : string := "Certify Test Cert".

Definition with_chain : api.Secret :=
  {| api.Warnings := [];
     api.Data := {[ "certificate" := VString leaf_pem;
                    "ca_chain" := VSlice [VString ca_pem] ]} |}.

Definition with_issuing_ca : api.Secret :=
  {| api.Warnings := [];
     api.Data := {[ "certificate" := VString leaf_pem;
                    "issuing_ca" := VString ca_pem ]} |}.

Definition with_both : api.Secret :=
  {| api.Warnings := [];
     api.Data := {[ "certificate" := VString leaf_pem;
                    "ca_chain" := VSlice [VString ca_pem; VString "Root"];
                    "issuing_ca" := VString "Other CA" ]} |}.

Definition leaf_only : api.Secret :=
  {| api.Warnings := [];
     api.Data := {[ "certificate" := VString leaf_pem ]} |}.

Definition warned : api.Secret :=
  {| api.Warnings := ["role is deprecated"];
     api.Data := {[ "certificate" := VString leaf_pem ]} |}.

Definition no_content : api.Secret :=
  {| api.Warnings := []; api.Data := ∅ |}.

Definition not_found : error :=
  errorString "Error making API request. Code: 404.".

Definition ParseSecret (body : string) : (option api.Secret * option error) * string :=
  if String.eqb body "" then ((None, Some io_EOF), "")
  else if String.eqb body "chain" then ((Some with_chain, None), "")
  else if String.eqb body "issuing" then ((Some with_issuing_ca, None), "")
  else if String.eqb body "both" then ((Some with_both, None), "")
  else if String.eqb body "leaf" then ((Some leaf_only, None), "")
  else if String.eqb body "warned" then ((Some warned, None), "")
  else if String.eqb body "{}" then ((Some no_content, None), "")
  else ((None, Some (errorString "invalid character")), "").

Definition RawRequestWithContext (c : api.Client) (ctx : context) (r : api.Request)
  : option api.Response * option error :=
  let ok body := (Some {| api.StatusCode := 200; api.Body := body |}, None) in
  let missing body :=
    (Some {| api.StatusCode := 404; api.Body := body |}, Some not_found) in
  if String.eqb (api.Path r) "/v1/pki/sign/chain" then ok "chain"
  else if String.eqb (api.Path r) "/v1/pki/sign/issuing" then ok "issuing"
  else if String.eqb (api.Path r) "/v1/pki/sign/both" then ok "both"
  else if String.eqb (api.Path r) "/v1/pki/sign/leaf" then ok "leaf"
  else if String.eqb (api.Path r) "/v1/pki/sign/gone" then missing ""
  else if String.eqb (api.Path r) "/v1/pki/sign/warned" then missing "warned"
  else if String.eqb (api.Path r) "/v1/pki/sign/empty" then missing "{}"
  else if String.eqb (api.Path r) "/v1/pki/sign/garbled" then missing "<html>"
  else (None, Some (errorString "connection refused")).

Definition env : Env :=
  {| api_DefaultConfig := {| api.Address := "https://127.0.0.1:8200";
                             api.TLSClientConfig := None |};
     api_NewClient := fun conf =>
       inl {| api.addr := api.Address conf; api.token := "";
              api.transport := api.TLSClientConfig conf |};
     csr_FromCertConfig := fun commonName conf =>
       inl ("csr for " +:+ commonName, commonName);
     json_Marshal := fun o => inl (Opts.CSR o);
     api_RawRequestWithContext := RawRequestWithContext;
     api_ParseSecret := ParseSecret;
     tls_X509KeyPair := X509KeyPair;
     x509_ParseCertificate := fun der => inl (parse der);
     pem_Certificates := lines;
     x509_ParsePrivateKey := fun key => inl key;
     key_matches := matches |}.

Definition client : api.Client :=
  {| api.addr := "https://vault.example"; api.token := "s.token";
     api.transport := None |}.

(** An issuer made by [FromClient], for the role [role]. *)
Definition issuer (role : string) : World :=
  {| self := FromClient (Some client) role; trace := [] |}.

(** An issuer configured by URL and token, without a session yet. *)
Definition fresh (role : string) : World :=
  {| self := {| URL := Some "https://vault.example"; Token := "s.token";
                Mount := ""; Role := role; TLSConfig := None;
                TimeToLive := 3600; OtherSubjectAlternativeNames := [];
                cli := None |};
     trace := [] |}.

(** The request a call for [somename.com] sends for the role [chain]. *)
Definition request : api.Request :=
  {| api.Method := "PUT"; api.Host := "https://vault.example";
     api.Path := "/v1/pki/sign/chain"; api.ClientToken := "s.token";
     api.Obj := Some {| Opts.CSR := "csr for somename.com";
                        Opts.CommonName := "somename.com";
                        Opts.ExcludeCNFromSANS := true;
                        Opts.Format := "pem";
                        Opts.OtherSans := [];
                        Opts.TimeToLive := ttl 3600 |};
     api.BodyBytes := "csr for somename.com" |}.

(** What [Issue] returns for [somename.com] and a chain of DER entries. *)
Definition issued (chain : list string) : tls.certificate :=
  {| tls.Certificate := chain; tls.PrivateKey := "somename.com";
     tls.Leaf := Some (parse "somename.com") |}.

Definition asynchronous : aws.Client :=
  {| aws.IssueCertificate := fun ca csr days alg => inl "anotherARN";
     aws.WaitUntilCertificateIssued := fun ctx ca handle => aws.Issued;
     aws.GetCertificate := fun ca handle => inl (leaf_pem, ca_pem) |}.

Definition aws_issuer : aws.Issuer :=
  {| aws.CertificateAuthorityARN := "someARN"; aws.TimeToLive := 25;
     aws.SigningAlgorithm := "SHA256WITHRSA"; aws.Client_ := asynchronous |}.

End double.

(** ** Reading aids for the proofs

    [Issue] cut at the two places the claims speak about: once a session
    exists (lines 86-123) and once the sign call has returned a secret
    (lines 105-123).  [Issue_unfold] shows that the cuts are [Issue]. *)

Definition same_config (v v' : Issuer) : Prop :=
  URL v' = URL v /\ Token v' = Token v /\ Mount v' = Mount v /\
  Role v' = Role v /\ TLSConfig v' = TLSConfig v /\
  TimeToLive v' = TimeToLive v /\
  OtherSubjectAlternativeNames v' = OtherSubjectAlternativeNames v.

(** The mount segment of the sign path, line 127-130. *)
Definition mount_name (v : Issuer) : string :=
  if decide (Mount v <> "") then Mount v else "pki".

(** The options literal of lines 91-98. *)
Definition sign_opts (v : Issuer) (commonName csrPEM : string) : csrOpts :=
  {| Opts.CSR := csrPEM;
     Opts.CommonName := commonName;
     Opts.ExcludeCNFromSANS := true;
     Opts.Format := "pem";
     Opts.OtherSans := OtherSubjectAlternativeNames v;
     Opts.TimeToLive := ttl (TimeToLive v) |}.

(** The request [signCSR] builds for an issuer, a client and options. *)
Definition sign_request (v : Issuer) (c : api.Client) (opts : csrOpts) (buf : string)
  : api.Request :=
  {| api.Method := "PUT"; api.Host := api.addr c;
     api.Path := "/v1/" +:+ mount_name v +:+ "/sign/" +:+ Role v;
     api.ClientToken := api.token c;
     api.Obj := Some opts; api.BodyBytes := buf |}.

(** Lines 138-158: what [signCSR] returns for what the transport gave. *)
Definition sign_reply (E : Env) (resp : option api.Response) (err : option error)
  : outcome (option api.Secret * option error) :=
  let rest (resp : option api.Response) :=
    match err with
    | Some e => Returned (None, Some e)
    | None =>
        match resp with
        | None => Panicked NilDereference
        | Some rsp => Returned (fst (api_ParseSecret E (api.Body rsp)))
        end
    end in
  match resp with
  | Some rsp =>
      if api.StatusCode rsp =? 404 then
        let '((secret, parseErr), unread) := api_ParseSecret E (api.Body rsp) in
        match parseErr with
        | None =>
            if has_warnings_or_data secret then Returned (secret, err)
            else rest (Some (api.with_Body rsp unread))
        | Some io_EOF => Returned (None, None)
        | Some _ => Returned (None, err)
        end
      else rest resp
  | None => rest resp
  end.

(** What lines 116-123 return for a chain text and a key. *)
Definition key_pair_result (E : Env) (caChainPEM keyPEM : string)
  : outcome (option tls.certificate * option error) :=
  match tls_X509KeyPair E caChainPEM keyPEM with
  | inr e => Returned (None, Some e)
  | inl tlsCert =>
      match tls.Certificate tlsCert with
      | [] => Panicked IndexOutOfRange
      | der :: _ => Returned (Some (tls.with_Leaf tlsCert (ParseCertificate E der)), None)
      end
  end.

(** Lines 105-123. *)
Definition issue_from_secret (E : Env) (secret : api.Secret) (keyPEM : string)
  : M (option tls.certificate * option error) :=
  certPEM <- lift (assert_string (api.Data secret !! "certificate")) ;;
  let caChainPEM := certPEM in
  caChainPEM <-
    match api.Data secret !! "ca_chain" with
    | Some caChain =>
        l <- lift (assert_slice caChain) ;;
        lift (append_chain caChainPEM l)
    | None =>
        match api.Data secret !! "issuing_ca" with
        | Some ca =>
            ca <- lift (assert_string (Some ca)) ;;
            ret ((caChainPEM +:+ newline) +:+ ca)
        | None => ret caChainPEM
        end
    end ;;
  r <- X509KeyPair E caChainPEM keyPEM ;;
  match r with
  | inr e => ret (None, Some e)
  | inl tlsCert =>
      der <- lift (index0 (tls.Certificate tlsCert)) ;;
      ret (Some (tls.with_Leaf tlsCert (ParseCertificate E der)), None)
  end.

(** Lines 86-123. *)
Definition issue_with_session (E : Env) (ctx : context) (commonName : string)
  (conf : option CertConfig) : M (option tls.certificate * option error) :=
  match csr_FromCertConfig E commonName conf with
  | inr e => ret (None, Some e)
  | inl (csrPEM, keyPEM) =>
  v <- get_self ;;
  x <- signCSR E v ctx (sign_opts v commonName csrPEM) ;;
  let '(secret, err) := x in
  match err with
  | Some e => ret (None, Some e)
  | None =>
  match secret with
  | None => lift (Panicked NilDereference)
  | Some secret => issue_from_secret E secret keyPEM
  end
  end
  end.

(** The text after the leaf in a chain: a line feed before each entry. *)
Fixpoint tail_pem (entries : list string) : string :=
  match entries with
  | [] => ""
  | e :: more => newline +:+ e +:+ tail_pem more
  end.

(** A goroutine that may still dial: it is at the nil check or past it
    on the way to [api.NewClient]. *)
Definition waiting (l : loc) : nat :=
  match l with
  | at_check | at_dial => 1
  | _ => 0
  end.

Fixpoint pending (ts : list loc) : nat :=
  match ts with
  | [] => 0
  | l :: ts => waiting l + pending ts
  end.

(** A goroutine that is not inside [connect]. *)
Definition outside_connect (l : loc) : Prop :=
  match l with
  | at_dial | at_set_token => False
  | _ => True
  end.

Definition is_Send (e : event) : bool :=
  match e with Send _ => true | _ => false end.

Definition is_Pair (e : event) : bool :=
  match e with Pair _ _ => true | _ => false end.

(** ** Test doubles with a fault

    The miniature CA with one function replaced: a Vault client that
    cannot be built, a CSR builder or a JSON encoder that fails, a sign
    endpoint with a fixed answer, a certificate parser that rejects what
    [tls.X509KeyPair] accepted. *)

Module faults.

Definition env_with
  (newClient : api.Config -> api.Client + error)
  (fromCertConfig : string -> option CertConfig -> (string * string) + error)
  (marshal : csrOpts -> string + error)
  (transport : api.Client -> context -> api.Request
               -> option api.Response * option error)
  (parseSecret : string -> (option api.Secret * option error) * string)
  (parseCertificate : string -> x509.certificate + error) : Env :=
  {| api_DefaultConfig := api_DefaultConfig double.env;
     api_NewClient := newClient;
     csr_FromCertConfig := fromCertConfig;
     json_Marshal := marshal;
     api_RawRequestWithContext := transport;
     api_ParseSecret := parseSecret;
     tls_X509KeyPair := double.X509KeyPair;
     x509_ParseCertificate := parseCertificate;
     pem_Certificates := double.lines;
     x509_ParsePrivateKey := fun key => inl key;
     key_matches := double.matches |}.

Definition refused : error := errorString "dial tcp: connection refused".

Definition no_vault : Env :=
  env_with (fun _ => inr refused) (csr_FromCertConfig double.env)
    (json_Marshal double.env) double.RawRequestWithContext double.ParseSecret
    (x509_ParseCertificate double.env).

Definition no_key : error := errorString "certify: no key generator".

Definition no_csr : Env :=
  env_with (api_NewClient double.env) (fun _ _ => inr no_key)
    (json_Marshal double.env) double.RawRequestWithContext double.ParseSecret
    (x509_ParseCertificate double.env).

Definition unsupported : error := errorString "json: unsupported value".

Definition no_json : Env :=
  env_with (api_NewClient double.env) (csr_FromCertConfig double.env)
    (fun _ => inr unsupported) double.RawRequestWithContext double.ParseSecret
    (x509_ParseCertificate double.env).

(** Every sign call is answered by the status, the body and the error
    given. *)
Definition replying (status : Z) (body : string) (err : option error) : Env :=
  env_with (api_NewClient double.env) (csr_FromCertConfig double.env)
    (json_Marshal double.env)
    (fun _ _ _ => (Some {| api.StatusCode := status; api.Body := body |}, err))
    double.ParseSecret (x509_ParseCertificate double.env).

(** Every sign call is answered by 200 and a body that parses to the
    secret given. *)
Definition answering (s : api.Secret) : Env :=
  env_with (api_NewClient double.env) (csr_FromCertConfig double.env)
    (json_Marshal double.env)
    (fun _ _ _ => (Some {| api.StatusCode := 200; api.Body := "secret" |}, None))
    (fun _ => ((Some s, None), "")) (x509_ParseCertificate double.env).

Definition malformed : error := errorString "x509: malformed certificate".

Definition unparsed_leaf : Env :=
  env_with (api_NewClient double.env) (csr_FromCertConfig double.env)
    (json_Marshal double.env) double.RawRequestWithContext double.ParseSecret
    (fun _ => inr malformed).

(** [ca_chain] is JSON null, [issuing_ca] is fine. *)
Definition null_chain : api.Secret :=
  {| api.Warnings := [];
     api.Data := {[ "certificate" := VString double.leaf_pem;
                    "ca_chain" := VNil;
                    "issuing_ca" := VString double.ca_pem ]} |}.

(** [ca_chain] is an empty sequence, [issuing_ca] is there. *)
Definition empty_chain : api.Secret :=
  {| api.Warnings := [];
     api.Data := {[ "certificate" := VString double.leaf_pem;
                    "ca_chain" := VSlice [];
                    "issuing_ca" := VString double.ca_pem ]} |}.

(** An issuer with a URL, a token and a TLS configuration, no session. *)
Definition with_tls : World :=
  {| self := {| URL := Some "https://vault.example"; Token := "s.token";
                Mount := "pki_int"; Role := "chain";
                TLSConfig := Some {| tls.ServerName := "vault.example";
                                     tls.RootCAs := ["Certify Test Cert"];
                                     tls.InsecureSkipVerify := false |};
                TimeToLive := 3600; OtherSubjectAlternativeNames := [];
                cli := None |};
     trace := [] |}.

End faults.

(** * Lemmas *)

Ltac go :=
  cbn [bind ret lift get_self set_cli emit fst snd self trace with_cli cli
       NewClient RawRequestWithContext X509KeyPair URL_String
       URL Token Mount Role TLSConfig TimeToLive OtherSubjectAlternativeNames] in *.

Ltac split_match :=
  match goal with
  | |- context [match ?x with _ => _ end] => destruct x eqn:?
  end.

Lemma Issue_unfold E ctx commonName conf :
  Issue E ctx commonName conf =
  (v <- get_self ;;
   err <- match cli v with
          | None => connect E ctx
          | Some _ => ret None
          end ;;
   match err with
   | Some e => ret (None, Some e)
   | None => issue_with_session E ctx commonName conf
   end).
Proof. reflexivity. Qed.

Lemma string_app_assoc (a b c : string) : (a +:+ b) +:+ c = a +:+ (b +:+ c).
Proof.
  induction a as [|x a IH]; [reflexivity|].
  change (String x ((a +:+ b) +:+ c) = String x (a +:+ (b +:+ c))).
  now rewrite IH.
Qed.

Lemma string_app_nil_r (a : string) : a +:+ "" = a.
Proof.
  induction a as [|x a IH]; [reflexivity|].
  change (String x (a +:+ "") = String x a).
  now rewrite IH.
Qed.

Lemma join_pem_cons (e : string) (more : list string) :
  join_pem (e :: more) = e +:+ tail_pem more.
Proof.
  revert e. induction more as [|e' more IH]; intros e.
  - simpl. now rewrite string_app_nil_r.
  - change (join_pem (e :: e' :: more)) with (e +:+ newline +:+ join_pem (e' :: more)).
    rewrite IH. reflexivity.
Qed.

Lemma append_chain_eq (l : list value) : forall acc,
  append_chain acc l =
  match mapM as_string l with
  | Some es => Returned (acc +:+ tail_pem es)
  | None => Panicked InterfaceConversion
  end.
Proof.
  induction l as [|x l IH]; intros acc.
  - simpl. now rewrite string_app_nil_r.
  - destruct x; try reflexivity.
    cbn [append_chain assert_string]. rewrite IH.
    cbn [mapM as_string mbind option_bind mret option_ret].
    destruct (mapM as_string l) as [es|]; cbn; [|reflexivity].
    now rewrite !string_app_assoc.
Qed.

(** Lines 105-123 follow the chain-resolution policy: the text paired
    with the key is the policy's chain, one entry per line. *)
Lemma issue_from_secret_eq E secret keyPEM w :
  issue_from_secret E secret keyPEM w =
  match chain_resolution (api.Data secret) with
  | None => (Panicked InterfaceConversion, w)
  | Some entries =>
      (key_pair_result E (join_pem entries) keyPEM,
       {| self := self w;
          trace := trace w ++ [Pair (join_pem entries) keyPEM] |})
  end.
Proof.
  unfold issue_from_secret, chain_resolution, key_pair_result.
  destruct (api.Data secret !! "certificate") as [[| | |leaf| |]|]; try reflexivity.
  cbn [assert_string lift bind mbind option_bind as_string].
  destruct (api.Data secret !! "ca_chain") as [chain|].
  - destruct chain as [| | | |l|]; try reflexivity.
    cbn [assert_slice lift bind as_strings]. rewrite append_chain_eq.
    destruct (mapM as_string l) as [es|]; cbn [fmap option_fmap option_map]; [|reflexivity].
    rewrite join_pem_cons. go.
    destruct (tls_X509KeyPair E _ keyPEM) as [c|e]; [|reflexivity].
    destruct (tls.Certificate c); reflexivity.
  - destruct (api.Data secret !! "issuing_ca") as [[| | |ca| |]|]; try reflexivity.
    + cbn [assert_string lift bind as_string fmap option_fmap option_map join_pem].
      go. rewrite string_app_assoc.
      destruct (tls_X509KeyPair E _ keyPEM) as [c|e]; [|reflexivity].
      destruct (tls.Certificate c); reflexivity.
    + cbn [join_pem]. go.
      destruct (tls_X509KeyPair E _ keyPEM) as [c|e]; [|reflexivity].
      destruct (tls.Certificate c); reflexivity.
Qed.

Lemma issue_with_session_eq E ctx commonName conf w :
  issue_with_session E ctx commonName conf w =
  match csr_FromCertConfig E commonName conf with
  | inr e => (Returned (None, Some e), w)
  | inl (csrPEM, keyPEM) =>
      match signCSR E (self w) ctx (sign_opts (self w) commonName csrPEM) w with
      | (Panicked p, w1) => (Panicked p, w1)
      | (Returned (_, Some e), w1) => (Returned (None, Some e), w1)
      | (Returned (None, None), w1) => (Panicked NilDereference, w1)
      | (Returned (Some secret, None), w1) => issue_from_secret E secret keyPEM w1
      end
  end.
Proof.
  unfold issue_with_session.
  destruct (csr_FromCertConfig E commonName conf) as [[csrPEM keyPEM]|e]; [|reflexivity].
  go. unfold bind at 1.
  destruct (signCSR E _ ctx _ w) as [[[[s|] [e|]]|p] w1]; reflexivity.
Qed.

Lemma Issue_eq E ctx commonName conf w :
  Issue E ctx commonName conf w =
  match cli (self w) with
  | Some _ => issue_with_session E ctx commonName conf w
  | None =>
      match connect E ctx w with
      | (Returned None, w1) => issue_with_session E ctx commonName conf w1
      | (Returned (Some e), w1) => (Returned (None, Some e), w1)
      | (Panicked p, w1) => (Panicked p, w1)
      end
  end.
Proof.
  rewrite Issue_unfold. go.
  destruct (cli (self w)); go; [reflexivity|]. unfold bind at 1.
  destruct (connect E ctx w) as [[[e|]|p] w1]; reflexivity.
Qed.

Lemma same_config_refl v : same_config v v.
Proof. repeat split. Qed.

(** [connect] writes nothing but [v.cli], dials at most once, and leaves
    a client behind exactly when it returns no error. *)
Lemma connect_run E ctx w :
  same_config (self w) (self (snd (connect E ctx w))) /\
  (trace (snd (connect E ctx w)) = trace w /\
     (exists p, fst (connect E ctx w) = Panicked p) \/
   exists conf,
     trace (snd (connect E ctx w)) = trace w ++ [Dial conf] /\
     (fst (connect E ctx w) = Returned None /\
        (exists c, cli (self (snd (connect E ctx w))) = Some c) \/
      (exists e, fst (connect E ctx w) = Returned (Some e)) /\
        cli (self (snd (connect E ctx w))) = None)).
Proof.
  unfold connect. go.
  destruct (URL (self w)) as [u|]; go.
  - destruct (api_NewClient E _) as [c|e]; go.
    + split; [repeat split|]. right. eexists; split; [reflexivity|]. left. eauto.
    + split; [repeat split|]. right. eexists; split; [reflexivity|]. right. eauto.
  - split; [repeat split|]. left. eauto.
Qed.

(** [signCSR] works on a copy of the issuer; it sends at most one
    request: a PUT to the sign path of the mount and role, carrying the
    options it was given. *)
Lemma signCSR_run E v ctx opts w :
  self (snd (signCSR E v ctx opts w)) = self w /\
  (trace (snd (signCSR E v ctx opts w)) = trace w /\
     (cli v = None /\ fst (signCSR E v ctx opts w) = Panicked NilDereference \/
      exists e, json_Marshal E opts = inr e /\
                fst (signCSR E v ctx opts w) = Returned (None, Some e)) \/
   exists c buf,
     cli v = Some c /\ json_Marshal E opts = inl buf /\
     trace (snd (signCSR E v ctx opts w)) =
       trace w ++ [Send {| api.Method := "PUT"; api.Host := api.addr c;
                           api.Path := "/v1/" +:+ mount_name v +:+ "/sign/" +:+ Role v;
                           api.ClientToken := api.token c;
                           api.Obj := Some opts; api.BodyBytes := buf |}]).
Proof.
  unfold signCSR, SetJSONBody, api.NewRequest, mount_name.
  destruct (cli v) as [c|]; go; [|split; [reflexivity | left; eauto]].
  destruct (json_Marshal E opts) as [buf|e]; go; [|split; [reflexivity | left; eauto]].
  match goal with |- context [api_RawRequestWithContext E c ctx ?r] =>
    destruct (api_RawRequestWithContext E c ctx r) as [resp err] end.
  repeat (go; try split_match); go;
    (split; [reflexivity | right; exists c, buf; repeat split; reflexivity]).
Qed.

Lemma issue_with_session_run E ctx commonName conf w :
  let r := issue_with_session E ctx commonName conf w in
  self (snd r) = self w /\
  exists sign pair,
    trace (snd r) = trace w ++ sign ++ pair /\
    (sign = [] /\ pair = [] \/
     exists c csrPEM keyPEM buf,
       cli (self w) = Some c /\
       csr_FromCertConfig E commonName conf = inl (csrPEM, keyPEM) /\
       json_Marshal E (sign_opts (self w) commonName csrPEM) = inl buf /\
       sign = [Send (sign_request (self w) c (sign_opts (self w) commonName csrPEM) buf)] /\
       (pair = [] \/
        exists caChainPEM,
          pair = [Pair caChainPEM keyPEM] /\
          fst r = key_pair_result E caChainPEM keyPEM)).
Proof.
  cbn zeta. rewrite issue_with_session_eq.
  destruct (csr_FromCertConfig E commonName conf) as [[csrPEM keyPEM]|e] eqn:Hcsr.
  2:{ split; [reflexivity|]. exists [], []. rewrite !app_nil_r. split; [reflexivity|]. now left. }
  destruct (signCSR_run E (self w) ctx (sign_opts (self w) commonName csrPEM) w)
    as [Hself Htr].
  destruct (signCSR E (self w) ctx _ w) as [[[[s|] [e|]]|p] w1]; cbn [fst snd] in *.
  all: destruct Htr as [[Ht [[_ Hr]|(e' & _ & Hr)]]|(c & buf & Hc & Hj & Ht)].
  all: try discriminate Hr.
  all: try (split; [assumption|]; exists [], []; rewrite !app_nil_r;
            split; [assumption | now left]).
  all: try (split; [assumption|]; eexists [_], []; split; [exact Ht|];
            right; exists c, csrPEM, keyPEM, buf;
            repeat split; try assumption; now left).
  rewrite issue_from_secret_eq.
  destruct (chain_resolution (api.Data s)) as [entries|]; cbn [fst snd self trace].
  - split; [assumption|]. eexists [_], [_]. split.
    + rewrite Ht. rewrite <- app_assoc. reflexivity.
    + right. exists c, csrPEM, keyPEM, buf. repeat split; try assumption.
      right. eexists. split; reflexivity.
  - split; [assumption|]. eexists [_], []. split; [exact Ht|].
    right. exists c, csrPEM, keyPEM, buf. repeat split; try assumption. now left.
Qed.

Lemma sign_opts_config v v' commonName csrPEM :
  same_config v v' -> sign_opts v' commonName csrPEM = sign_opts v commonName csrPEM.
Proof.
  intros (_ & _ & _ & _ & _ & Ht & Ho). unfold sign_opts. now rewrite Ht, Ho.
Qed.

Lemma sign_request_config v v' c opts buf :
  same_config v v' -> sign_request v' c opts buf = sign_request v c opts buf.
Proof.
  intros (_ & _ & Hm & Hr & _). unfold sign_request, mount_name. now rewrite Hm, Hr.
Qed.

(** Every run of [Issue]: the configuration is untouched, an existing
    client stays, and the calls that leave the process are at most one
    dial (only without a client), then at most one sign request, then at
    most one key pairing, whose verdict is the result. *)
Lemma Issue_run E ctx commonName conf w :
  let r := Issue E ctx commonName conf w in
  same_config (self w) (self (snd r)) /\
  (forall c, cli (self w) = Some c -> cli (self (snd r)) = Some c) /\
  exists dial sign pair,
    trace (snd r) = trace w ++ dial ++ sign ++ pair /\
    (dial = [] \/ cli (self w) = None /\ exists conf, dial = [Dial conf]) /\
    (sign = [] /\ pair = [] \/
     exists c csrPEM keyPEM buf,
       cli (self (snd r)) = Some c /\
       csr_FromCertConfig E commonName conf = inl (csrPEM, keyPEM) /\
       json_Marshal E (sign_opts (self w) commonName csrPEM) = inl buf /\
       sign = [Send (sign_request (self w) c (sign_opts (self w) commonName csrPEM) buf)] /\
       (pair = [] \/
        exists caChainPEM,
          pair = [Pair caChainPEM keyPEM] /\
          fst r = key_pair_result E caChainPEM keyPEM)).
Proof.
  cbn zeta. rewrite Issue_eq.
  destruct (cli (self w)) as [c0|] eqn:Hcli.
  - destruct (issue_with_session_run E ctx commonName conf w) as (Hself & sign & pair & Ht & Hs).
    rewrite Hself. split; [apply same_config_refl|]. split; [now intros c [= <-]|].
    exists [], sign, pair. split; [exact Ht|]. split; [now left|].
    destruct Hs as [Hs|(c & csrPEM & keyPEM & buf & Hc & Hs)]; [now left|].
    right. exists c, csrPEM, keyPEM, buf. split; [congruence | exact Hs].
  - destruct (connect_run E ctx w) as [Hcfg Hc].
    destruct (connect E ctx w) as [[[e|]|p] w1]; cbn [fst snd] in *.
    + split; [assumption|]. split; [discriminate|].
      destruct Hc as [[_ [p Hp]]|(cf & Ht & Hc)]; [discriminate Hp|].
      exists [Dial cf], [], []. split; [exact Ht|]. split; [right; eauto | now left].
    + destruct Hc as [[_ [p Hp]]|(cf & Ht & [[_ [c1 Hc1]]|[[e He] _]])];
        [discriminate Hp | | discriminate He].
      destruct (issue_with_session_run E ctx commonName conf w1)
        as (Hself & sign & pair & Ht' & Hs).
      rewrite Hself. split; [assumption|]. split; [discriminate|].
      exists [Dial cf], sign, pair. split.
      { rewrite Ht', Ht, <- app_assoc. reflexivity. }
      split; [right; eauto|].
      destruct Hs as [Hs|(c & csrPEM & keyPEM & buf & Hc & Hcsr & Hj & Hsend & Hp)];
        [now left|].
      right. exists c, csrPEM, keyPEM, buf.
      rewrite (sign_opts_config _ _ _ _ Hcfg) in Hj, Hsend.
      rewrite (sign_request_config _ _ _ _ _ Hcfg) in Hsend.
      repeat split; assumption.
    + split; [assumption|]. split; [discriminate|].
      destruct Hc as [[Ht _]|(cf & Ht & _)].
      * exists [], [], []. rewrite app_nil_r. split; [exact Ht|]. split; now left.
      * exists [Dial cf], [], []. split; [exact Ht|]. split; [right; eauto | now left].
Qed.

Lemma key_pair_result_success E caChainPEM keyPEM c err :
  key_pair_result E caChainPEM keyPEM = Returned (Some c, err) ->
  exists tlsCert der more,
    tls_X509KeyPair E caChainPEM keyPEM = inl tlsCert /\
    tls.Certificate tlsCert = der :: more /\
    c = tls.with_Leaf tlsCert (ParseCertificate E der) /\
    err = None.
Proof.
  unfold key_pair_result.
  destruct (tls_X509KeyPair E caChainPEM keyPEM) as [tlsCert|e]; [|discriminate].
  destruct (tls.Certificate tlsCert) as [|der more] eqn:Hc; [discriminate|].
  intros [= <- <-]. exists tlsCert, der, more. auto.
Qed.

Lemma issue_with_session_success E ctx commonName conf w c err :
  fst (issue_with_session E ctx commonName conf w) = Returned (Some c, err) ->
  exists csrPEM keyPEM w2 secret entries,
    csr_FromCertConfig E commonName conf = inl (csrPEM, keyPEM) /\
    signCSR E (self w) ctx (sign_opts (self w) commonName csrPEM) w
      = (Returned (Some secret, None), w2) /\
    chain_resolution (api.Data secret) = Some entries /\
    key_pair_result E (join_pem entries) keyPEM = Returned (Some c, err).
Proof.
  rewrite issue_with_session_eq.
  destruct (csr_FromCertConfig E commonName conf) as [[csrPEM keyPEM]|e]; [|discriminate].
  destruct (signCSR E (self w) ctx _ w) as [[[[s|] [e|]]|p] w2] eqn:Hs; try discriminate.
  rewrite issue_from_secret_eq.
  destruct (chain_resolution (api.Data s)) as [entries|] eqn:Hr; [|discriminate].
  cbn [fst]. intros H. exists csrPEM, keyPEM, w2, s, entries. auto.
Qed.

(** A certificate comes out of [Issue] only along one path: the CSR
    builder gave a key, the sign call returned a secret and no error,
    the secret resolved to a chain, and [tls.X509KeyPair] accepted the
    chain's text with that key. *)
Lemma Issue_success E ctx commonName conf w c err :
  fst (Issue E ctx commonName conf w) = Returned (Some c, err) ->
  exists csrPEM keyPEM w1 w2 secret entries tlsCert der more,
    same_config (self w) (self w1) /\
    csr_FromCertConfig E commonName conf = inl (csrPEM, keyPEM) /\
    signCSR E (self w1) ctx (sign_opts (self w) commonName csrPEM) w1
      = (Returned (Some secret, None), w2) /\
    chain_resolution (api.Data secret) = Some entries /\
    tls_X509KeyPair E (join_pem entries) keyPEM = inl tlsCert /\
    tls.Certificate tlsCert = der :: more /\
    c = tls.with_Leaf tlsCert (ParseCertificate E der) /\
    err = None.
Proof.
  rewrite Issue_eq. intros H.
  assert (exists w1, same_config (self w) (self w1) /\
            fst (issue_with_session E ctx commonName conf w1) = Returned (Some c, err))
    as (w1 & Hcfg & H1).
  { destruct (cli (self w)).
    - exists w. split; [apply same_config_refl | exact H].
    - pose proof (connect_run E ctx w) as [Hcfg _].
      destruct (connect E ctx w) as [[[e|]|p] w1]; try discriminate.
      exists w1. split; assumption. }
  destruct (issue_with_session_success _ _ _ _ _ _ _ H1)
    as (csrPEM & keyPEM & w2 & secret & entries & Hcsr & Hs & Hr & Hk).
  destruct (key_pair_result_success _ _ _ _ _ Hk) as (tlsCert & der & more & Hx & Hc & -> & ->).
  rewrite (sign_opts_config _ _ _ _ Hcfg) in Hs.
  exists csrPEM, keyPEM, w1, w2, secret, entries, tlsCert, der, more.
  split; [exact Hcfg|]. repeat split; auto.
Qed.

Lemma signCSR_eq E v ctx opts w c buf :
  cli v = Some c ->
  json_Marshal E opts = inl buf ->
  signCSR E v ctx opts w =
  (let '(resp, err) :=
     api_RawRequestWithContext E c ctx (sign_request v c opts buf) in
   sign_reply E resp err,
   {| self := self w; trace := trace w ++ [Send (sign_request v c opts buf)] |}).
Proof.
  intros Hc Hj.
  unfold signCSR, SetJSONBody, api.NewRequest, sign_request, mount_name, sign_reply.
  rewrite Hc, Hj. cbv zeta.
  cbn [api.Method api.Host api.Path api.ClientToken api.Obj api.BodyBytes].
  destruct (decide (Mount v <> "")); go; unfold bind; go;
    destruct (api_RawRequestWithContext E c ctx _) as [resp err];
    repeat (go; try split_match); reflexivity.
Qed.

Lemma has_warnings_or_data_true (s : api.Secret) :
  api.Warnings s <> [] \/ api.Data s <> ∅ <->
  has_warnings_or_data (Some s) = true.
Proof.
  unfold has_warnings_or_data. rewrite orb_true_iff, !Z.ltb_lt. split.
  - intros [H|H].
    + left. destruct (api.Warnings s); [congruence | cbn; lia].
    + right. destruct (decide (size (api.Data s) = 0%nat)) as [Hz|Hz]; [|lia].
      apply map_size_empty_iff in Hz. congruence.
  - intros [H|H].
    + left. destruct (api.Warnings s); [cbn in H; lia | discriminate].
    + right. intros Hz. rewrite Hz, map_size_empty in H. lia.
Qed.

(** * The claims *)

(** C1 (the code departs from it).  A sign call answered by 404 with an
    empty body: [signCSR] returns a nil secret and a nil error, and
    [Issue], which goes on to read [secret.Data], panics with a nil
    dereference instead of returning a nil certificate and a nil error. *)
Theorem Issue_not_found_empty_body E ctx commonName conf w c csrPEM keyPEM buf
  resp err secret unread :
  cli (self w) = Some c ->
  csr_FromCertConfig E commonName conf = inl (csrPEM, keyPEM) ->
  json_Marshal E (sign_opts (self w) commonName csrPEM) = inl buf ->
  api_RawRequestWithContext E c ctx
    (sign_request (self w) c (sign_opts (self w) commonName csrPEM) buf)
    = (Some resp, err) ->
  api.StatusCode resp = 404 ->
  api_ParseSecret E (api.Body resp) = ((secret, Some io_EOF), unread) ->
  fst (signCSR E (self w) ctx (sign_opts (self w) commonName csrPEM) w)
    = Returned (None, None) /\
  fst (Issue E ctx commonName conf w) = Panicked NilDereference.
Proof.
  intros Hc Hcsr Hj Hraw Hst Hparse.
  assert (Hs : fst (signCSR E (self w) ctx (sign_opts (self w) commonName csrPEM) w)
               = Returned (None, None)).
  { rewrite (signCSR_eq _ _ _ _ _ _ _ Hc Hj), Hraw. cbn [fst].
    unfold sign_reply. rewrite Hst, Hparse. reflexivity. }
  split; [exact Hs|].
  rewrite Issue_eq, Hc, issue_with_session_eq, Hcsr.
  destruct (signCSR E (self w) ctx _ w) as [r w1]. cbn [fst] in Hs. now subst r.
Qed.

Lemma Issue_not_found_empty_body_witness :
  fst (signCSR double.env (self (double.issuer "gone")) ctx_Background
         (sign_opts (self (double.issuer "gone")) "somename.com" "csr for somename.com")
         (double.issuer "gone"))
    = Returned (None, None) /\
  fst (Issue double.env ctx_Background "somename.com" None (double.issuer "gone"))
    = Panicked NilDereference.
Proof.
  eapply (Issue_not_found_empty_body double.env ctx_Background "somename.com" None
            (double.issuer "gone") double.client "csr for somename.com" "somename.com");
    reflexivity.
Defined.

(** C3, as the spec has it, fails: on a 404 whose body parses to a
    secret with a warning, [signCSR] hands the secret back together with
    the error of the sign call, so the caller does not see a success;
    [Issue] then returns that error and no certificate. *)
Lemma signCSR_not_found_with_warnings_is_no_success :
  api_RawRequestWithContext double.env double.client ctx_Background
    (sign_request (self (double.issuer "warned")) double.client
       (sign_opts (self (double.issuer "warned")) "somename.com" "csr for somename.com")
       "csr for somename.com")
    = (Some {| api.StatusCode := 404; api.Body := "warned" |}, Some double.not_found) /\
  api_ParseSecret double.env "warned" = ((Some double.warned, None), "") /\
  api.Warnings double.warned <> [] /\
  fst (signCSR double.env (self (double.issuer "warned")) ctx_Background
         (sign_opts (self (double.issuer "warned")) "somename.com" "csr for somename.com")
         (double.issuer "warned"))
    = Returned (Some double.warned, Some double.not_found) /\
  fst (signCSR double.env (self (double.issuer "warned")) ctx_Background
         (sign_opts (self (double.issuer "warned")) "somename.com" "csr for somename.com")
         (double.issuer "warned"))
    <> Returned (Some double.warned, None) /\
  fst (Issue double.env ctx_Background "somename.com" None (double.issuer "warned"))
    = Returned (None, Some double.not_found).
Proof.
  assert (H : fst (signCSR double.env (self (double.issuer "warned")) ctx_Background
         (sign_opts (self (double.issuer "warned")) "somename.com" "csr for somename.com")
         (double.issuer "warned"))
    = Returned (Some double.warned, Some double.not_found)) by (vm_compute; reflexivity).
  split; [reflexivity|]. split; [reflexivity|]. split; [discriminate|].
  split; [exact H|]. split; [rewrite H; discriminate|].
  vm_compute. reflexivity.
Qed.

(** C3, amended.  On a 404 response: a body that parses to a secret with
    at least one warning or data entry is returned together with the
    error of the sign call, unchanged; a parsed body without either,
    when the sign call reported an error, yields that error and no
    secret; a body that fails to parse other than by end of stream
    yields the error of the sign call, not the parse error. *)
Theorem signCSR_not_found E v ctx opts w c buf resp err secret parseErr unread :
  cli v = Some c ->
  json_Marshal E opts = inl buf ->
  api_RawRequestWithContext E c ctx (sign_request v c opts buf) = (Some resp, err) ->
  api.StatusCode resp = 404 ->
  api_ParseSecret E (api.Body resp) = ((secret, parseErr), unread) ->
  (forall s, parseErr = None -> secret = Some s ->
             api.Warnings s <> [] \/ api.Data s <> ∅ ->
             fst (signCSR E v ctx opts w) = Returned (Some s, err)) /\
  (forall e, parseErr = None -> has_warnings_or_data secret = false ->
             err = Some e ->
             fst (signCSR E v ctx opts w) = Returned (None, Some e)) /\
  (forall parseError, parseErr = Some parseError -> parseError <> io_EOF ->
             fst (signCSR E v ctx opts w) = Returned (None, err)).
Proof.
  intros Hc Hj Hraw Hst Hparse.
  rewrite (signCSR_eq _ _ _ _ _ _ _ Hc Hj), Hraw. cbn [fst].
  unfold sign_reply. rewrite Hst, Hparse. cbn [Z.eqb Pos.eqb].
  split; [|split].
  - intros s -> -> Hs. apply has_warnings_or_data_true in Hs. now rewrite Hs.
  - intros e -> Hs ->. now rewrite Hs.
  - intros pe -> Hpe. destruct pe; [congruence | reflexivity].
Qed.

Lemma signCSR_not_found_witness :
  fst (signCSR double.env (self (double.issuer "warned")) ctx_Background
         (sign_opts (self (double.issuer "warned")) "somename.com" "csr")
         (double.issuer "warned"))
  = Returned (Some double.warned, Some double.not_found).
Proof.
  refine (proj1 (signCSR_not_found double.env (self (double.issuer "warned"))
                   ctx_Background
                   (sign_opts (self (double.issuer "warned")) "somename.com" "csr")
                   (double.issuer "warned") double.client "csr"
                   {| api.StatusCode := 404; api.Body := "warned" |}
                   (Some double.not_found) (Some double.warned) None ""
                   eq_refl eq_refl eq_refl eq_refl eq_refl)
            double.warned eq_refl eq_refl _).
  left. discriminate.
Defined.

Lemma new_events {A} (l e1 e2 : list A) : l ++ e1 = l ++ e2 -> e1 = e2.
Proof. apply app_inv_head. Qed.

(** C7.  Whatever request a call of [Issue] sends carries exactly the
    CSR built for the call, the common name, exclude-CN-from-SANs set,
    the format pem, the issuer's other SANs and its time to live; it is
    a PUT whose body is the JSON encoding of these options. *)
Theorem Issue_signing_request E ctx commonName conf w events r :
  trace (snd (Issue E ctx commonName conf w)) = trace w ++ events ->
  In (Send r) events ->
  exists csrPEM keyPEM,
    csr_FromCertConfig E commonName conf = inl (csrPEM, keyPEM) /\
    api.Method r = "PUT" /\
    api.Obj r = Some {| Opts.CSR := csrPEM;
                        Opts.CommonName := commonName;
                        Opts.ExcludeCNFromSANS := true;
                        Opts.Format := "pem";
                        Opts.OtherSans := OtherSubjectAlternativeNames (self w);
                        Opts.TimeToLive := ttl (TimeToLive (self w)) |} /\
    forall o, api.Obj r = Some o -> json_Marshal E o = inl (api.BodyBytes r).
Proof.
  intros Ht Hin.
  destruct (Issue_run E ctx commonName conf w) as (_ & _ & dial & sign & pair & Ht' & Hd & Hs).
  rewrite Ht in Ht'. apply new_events in Ht'. subst events.
  rewrite !in_app_iff in Hin. destruct Hin as [Hin|[Hin|Hin]].
  - destruct Hd as [->|(_ & cf & ->)]; [destruct Hin|].
    destruct Hin as [Hin|[]]; discriminate Hin.
  - destruct Hs as [[-> _]|(c & csrPEM & keyPEM & buf & _ & Hcsr & Hj & -> & _)];
      [destruct Hin|].
    destruct Hin as [[= <-]|[]].
    exists csrPEM, keyPEM. split; [exact Hcsr|]. split; [reflexivity|].
    split; [reflexivity|]. intros o [= <-]. exact Hj.
  - destruct Hs as [[_ ->]|(c & csrPEM & keyPEM & buf & _ & _ & _ & _ & [->|(b & -> & _)])];
      simpl in Hin; intuition discriminate.
Qed.

Lemma Issue_signing_request_witness :
  exists csrPEM keyPEM,
    csr_FromCertConfig double.env "somename.com" None = inl (csrPEM, keyPEM) /\
    api.Method double.request = "PUT" /\
    api.Obj double.request
    = Some {| Opts.CSR := csrPEM;
              Opts.CommonName := "somename.com";
              Opts.ExcludeCNFromSANS := true;
              Opts.Format := "pem";
              Opts.OtherSans := [];
              Opts.TimeToLive := ttl 3600 |} /\
    forall o, api.Obj double.request = Some o ->
              json_Marshal double.env o = inl (api.BodyBytes double.request).
Proof.
  apply (Issue_signing_request double.env ctx_Background "somename.com" None
           (double.fresh "chain")
           [Dial {| api.Address := "https://vault.example"; api.TLSClientConfig := None |};
            Send double.request;
            Pair (double.leaf_pem +:+ newline +:+ double.ca_pem) "somename.com"]).
  - vm_compute. reflexivity.
  - right. left. reflexivity.
Defined.

Lemma mount_name_eqb v :
  mount_name v = if String.eqb (Mount v) "" then "pki" else Mount v.
Proof.
  unfold mount_name. destruct (decide (Mount v <> "")) as [H|H].
  - apply String.eqb_neq in H. now rewrite H.
  - destruct (String.eqb_spec (Mount v) ""); [reflexivity | contradiction].
Qed.

(** C8.  The request of a sign call goes to [/v1/<mount>/sign/<role>],
    where the mount segment is [pki] when the issuer's Mount is empty
    and the Mount otherwise. *)
Theorem signCSR_mount E v ctx opts w events r :
  trace (snd (signCSR E v ctx opts w)) = trace w ++ events ->
  In (Send r) events ->
  api.Path r =
    "/v1/" +:+ (if String.eqb (Mount v) "" then "pki" else Mount v)
           +:+ "/sign/" +:+ Role v.
Proof.
  intros Ht Hin.
  destruct (signCSR_run E v ctx opts w) as [_ [[Ht' _]|(c & buf & _ & _ & Ht')]];
    rewrite Ht in Ht'.
  - rewrite <- (app_nil_r (trace w)) in Ht' at 2.
    apply new_events in Ht'. subst events. destruct Hin.
  - apply new_events in Ht'. subst events.
    destruct Hin as [[= <-]|[]]. cbn [api.Path]. now rewrite mount_name_eqb.
Qed.

Lemma signCSR_mount_witness :
  api.Path double.request = "/v1/" +:+ "pki" +:+ "/sign/" +:+ "chain".
Proof.
  apply (signCSR_mount double.env
           (with_cli (self (double.fresh "chain")) (Some double.client))
           ctx_Background
           (sign_opts (self (double.fresh "chain")) "somename.com" "csr for somename.com")
           (double.fresh "chain") [Send double.request]).
  - vm_compute. reflexivity.
  - left. reflexivity.
Defined.

(** A mount that is set is used as it is. *)
Example signCSR_mount_set :
  let v := {| URL := None; Token := ""; Mount := "pki_int"; Role := "web";
              TLSConfig := None; TimeToLive := 0;
              OtherSubjectAlternativeNames := []; cli := Some double.client |} in
  map (fun e => match e with Send r => api.Path r | _ => "" end)
      (trace (snd (signCSR double.env v ctx_Background
                     (sign_opts v "somename.com" "csr") {| self := v; trace := [] |})))
  = ["/v1/pki_int/sign/web"].
Proof. vm_compute. reflexivity. Qed.

Lemma run_calls_frame E calls : forall w,
  same_config (self w) (self (run_calls E calls w)) /\
  (forall c, cli (self w) = Some c -> cli (self (run_calls E calls w)) = Some c).
Proof.
  induction calls as [|c calls IH]; intros w.
  - split; [apply same_config_refl | auto].
  - change (run_calls E (c :: calls) w) with (run_calls E calls (run_call E c w)).
    destruct (IH (run_call E c w)) as [Hcfg Hcli].
    destruct (Issue_run E (call_ctx c) (call_commonName c) (call_conf c) w)
      as (Hcfg1 & Hcli1 & _).
    fold (run_call E c w) in Hcfg1, Hcli1. split.
    + unfold same_config in *. intuition congruence.
    + intros c0 H0. apply Hcli, Hcli1, H0.
Qed.

(** C10.  Calls of [Issue], one or many in a row, leave URL, Token,
    Mount, Role, TLSConfig, TimeToLive and OtherSubjectAlternativeNames
    as they were; the client is written only if it was nil at entry, and
    a client that is there is still there, unchanged, after any further
    calls. *)
Theorem Issue_writes_only_a_nil_client E calls w :
  URL (self (run_calls E calls w)) = URL (self w) /\
  Token (self (run_calls E calls w)) = Token (self w) /\
  Mount (self (run_calls E calls w)) = Mount (self w) /\
  Role (self (run_calls E calls w)) = Role (self w) /\
  TLSConfig (self (run_calls E calls w)) = TLSConfig (self w) /\
  TimeToLive (self (run_calls E calls w)) = TimeToLive (self w) /\
  OtherSubjectAlternativeNames (self (run_calls E calls w))
    = OtherSubjectAlternativeNames (self w) /\
  (cli (self w) = None \/ cli (self (run_calls E calls w)) = cli (self w)).
Proof.
  destruct (run_calls_frame E calls w) as [(H1 & H2 & H3 & H4 & H5 & H6 & H7) Hcli].
  repeat (split; [assumption|]).
  destruct (cli (self w)) as [c|]; [right; now apply Hcli | now left].
Qed.

(** ** Concurrent calls *)

(** One goroutine alone takes the steps of [connect]. *)
Lemma solo_first_call E ctx w :
  cli (self w) = None ->
  shared (run_schedule E [0; 0; 0]%nat (first_calls 1 w)) = snd (connect E ctx w).
Proof.
  intros Hc. unfold run_schedule, first_calls, sched_step, connect. cbn.
  rewrite Hc. cbn. go.
  destruct (URL (self w)); cbn; [|reflexivity].
  destruct (api_NewClient E _); reflexivity.
Qed.

Lemma dials_snoc_Dial w conf v :
  dials {| self := v; trace := trace w ++ [Dial conf] |} = S (dials w).
Proof.
  unfold dials. cbn [trace]. rewrite List.filter_app, length_app. cbn. lia.
Qed.

Lemma pending_insert (ts : list loc) : forall i l l',
  ts !! i = Some l ->
  (pending (<[i := l']> ts) + waiting l = pending ts + waiting l')%nat.
Proof.
  induction ts as [|t ts IH]; intros [|i] l l' H; try discriminate.
  - injection H as ->. change (<[0%nat := l']> (l :: ts)) with (l' :: ts).
    cbn [pending]. lia.
  - change (<[S i := l']> (t :: ts)) with (t :: <[i := l']> ts).
    change ((t :: ts) !! S i) with (ts !! i) in H.
    cbn [pending]. specialize (IH i l l' H). lia.
Qed.

Lemma sched_step_potential E s i :
  (dials (shared (sched_step E s i)) + pending (threads (sched_step E s i))
   <= dials (shared s) + pending (threads s))%nat.
Proof.
  unfold sched_step. destruct (threads s !! i) as [l|] eqn:Hl; [|lia].
  destruct (thread_step E l (shared s)) as [l' w'] eqn:Hstep. cbn [shared threads].
  pose proof (pending_insert _ _ _ l' Hl) as Hp.
  assert (dials w' + waiting l' <= dials (shared s) + waiting l)%nat; [|lia].
  clear Hp Hl. unfold thread_step in Hstep.
  destruct l; cbn [waiting].
  - destruct (cli (self (shared s))); injection Hstep as <- <-; cbn; lia.
  - destruct (URL (self (shared s))); [|injection Hstep as <- <-; cbn; lia].
    destruct (api_NewClient E _); injection Hstep as <- <-;
      rewrite dials_snoc_Dial; cbn; lia.
  - destruct (cli (self (shared s))); injection Hstep as <- <-; cbn; unfold dials; cbn; lia.
  - destruct (cli (self (shared s))); injection Hstep as <- <-; cbn; lia.
  - injection Hstep as <- <-; cbn; lia.
  - injection Hstep as <- <-; cbn; lia.
  - injection Hstep as <- <-; cbn; lia.
Qed.

Lemma run_schedule_potential E schedule : forall s,
  (dials (shared (run_schedule E schedule s)) + pending (threads (run_schedule E schedule s))
   <= dials (shared s) + pending (threads s))%nat.
Proof.
  induction schedule as [|i schedule IH]; intros s; [cbn; lia|].
  change (run_schedule E (i :: schedule) s)
    with (run_schedule E schedule (sched_step E s i)).
  pose proof (IH (sched_step E s i)). pose proof (sched_step_potential E s i). lia.
Qed.

Lemma pending_first_calls n : pending (replicate n at_check) = n.
Proof. induction n as [|n IH]; cbn; [reflexivity | now rewrite IH]. Qed.

Lemma sched_step_with_client E s i c :
  cli (self (shared s)) = Some c ->
  Forall outside_connect (threads s) ->
  shared (sched_step E s i) = shared s /\
  Forall outside_connect (threads (sched_step E s i)).
Proof.
  intros Hc Hall. unfold sched_step.
  destruct (threads s !! i) as [l|] eqn:Hl; [|auto].
  assert (Hout : outside_connect l).
  { rewrite Forall_forall in Hall. apply Hall. eapply list_elem_of_lookup_2. exact Hl. }
  destruct l; cbn [thread_step]; try contradiction; rewrite ?Hc; cbn [shared threads];
    (split; [reflexivity | apply Forall_insert; [assumption | exact I]]).
Qed.

Lemma run_schedule_with_client E schedule : forall s c,
  cli (self (shared s)) = Some c ->
  Forall outside_connect (threads s) ->
  shared (run_schedule E schedule s) = shared s.
Proof.
  induction schedule as [|i schedule IH]; intros s c Hc Hall; [reflexivity|].
  change (run_schedule E (i :: schedule) s)
    with (run_schedule E schedule (sched_step E s i)).
  destruct (sched_step_with_client E s i c Hc Hall) as [Hs Hall'].
  rewrite (IH _ c); [exact Hs | now rewrite Hs | exact Hall'].
Qed.

Lemma Issue_dials E ctx commonName conf w :
  (dials (snd (Issue E ctx commonName conf w)) <= dials w + 1)%nat /\
  (cli (self w) = None \/ dials (snd (Issue E ctx commonName conf w)) = dials w).
Proof.
  destruct (Issue_run E ctx commonName conf w)
    as (_ & _ & dial & sign & pair & Ht & Hd & Hs).
  assert (Hsp : List.filter is_Dial (sign ++ pair) = []).
  { destruct Hs as [[-> ->]|(c & csrPEM & keyPEM & buf & _ & _ & _ & -> & [->|(b & -> & _)])];
      reflexivity. }
  unfold dials. rewrite Ht, List.filter_app, length_app, List.filter_app, Hsp, app_nil_r.
  destruct Hd as [->|(Hn & cf & ->)]; cbn.
  - split; [lia|]. right. lia.
  - split; [lia|]. now left.
Qed.

(** C9, as the spec has it, fails: nothing guards the nil check.  Two
    goroutines that both pass it before either has assigned the client
    each dial, so the session is established twice; and a goroutine
    that arrives between the assignment of the client and [SetToken]
    goes on to sign with a client that carries no token yet. *)
Lemma concurrent_first_calls_race :
  cli (self (double.fresh "chain")) = None /\
  dials (double.fresh "chain") = 0%nat /\
  dials (shared (run_schedule double.env [0; 1; 0; 0; 1; 1]%nat
                   (first_calls 2 (double.fresh "chain")))) = 2%nat /\
  ~ (forall schedule,
       (dials (shared (run_schedule double.env schedule
                         (first_calls 2 (double.fresh "chain")))) <= 1)%nat) /\
  Token (self (double.fresh "chain")) = "s.token" /\
  threads (run_schedule double.env [0; 0; 1; 1]%nat
             (first_calls 2 (double.fresh "chain"))) !! 1%nat
  = Some (signing {| api.addr := "https://vault.example"; api.token := "";
                     api.transport := None |}).
Proof.
  split; [reflexivity|]. split; [reflexivity|].
  assert (H : dials (shared (run_schedule double.env [0; 1; 0; 0; 1; 1]%nat
                   (first_calls 2 (double.fresh "chain")))) = 2%nat)
    by (vm_compute; reflexivity).
  split; [exact H|]. split.
  - intros Hall. specialize (Hall [0; 1; 0; 0; 1; 1]%nat). rewrite H in Hall. lia.
  - split; vm_compute; reflexivity.
Qed.

(** C9, amended.  There is no exclusivity among concurrent first calls:
    what holds is that each call establishes a session at most once and
    only if it found none, so [n] concurrent calls dial at most [n]
    times under any schedule, and a call run on its own dials at most
    once, and not at all when a client is there.  An issuer that has a
    client, such as one made by [FromClient], never re-establishes the
    session: under any schedule of any number of concurrent calls the
    issuer and the trace stay as they were. *)
Theorem session_initialisation E n schedule w :
  (dials (shared (run_schedule E schedule (first_calls n w))) <= dials w + n)%nat /\
  (cli (self w) = None \/
   shared (run_schedule E schedule (first_calls n w)) = w) /\
  (forall ctx commonName conf,
     (dials (snd (Issue E ctx commonName conf w)) <= dials w + 1)%nat /\
     (cli (self w) = None \/
      dials (snd (Issue E ctx commonName conf w)) = dials w /\
      cli (self (snd (Issue E ctx commonName conf w))) = cli (self w))) /\
  (forall client role ctx commonName conf,
     self w = FromClient (Some client) role ->
     self (snd (Issue E ctx commonName conf w)) = self w /\
     Forall (fun e => is_Dial e = false)
       (skipn (length (trace w)) (trace (snd (Issue E ctx commonName conf w))))).
Proof.
  split; [|split; [|split]].
  - pose proof (run_schedule_potential E schedule (first_calls n w)) as H.
    cbn [first_calls shared threads] in H. rewrite pending_first_calls in H. lia.
  - destruct (cli (self w)) as [c|] eqn:Hc; [right | now left].
    apply (run_schedule_with_client E schedule (first_calls n w) c Hc).
    cbn [first_calls threads]. apply Forall_replicate. exact I.
  - intros ctx commonName conf.
    destruct (Issue_dials E ctx commonName conf w) as [H1 H2]. split; [exact H1|].
    destruct (cli (self w)) as [c|] eqn:Hc; [right | now left].
    destruct H2 as [H2|H2]; [discriminate|]. split; [exact H2|].
    destruct (Issue_run E ctx commonName conf w) as (_ & Hcli & _).
    now apply Hcli.
  - intros client role ctx commonName conf Hself.
    destruct (Issue_run E ctx commonName conf w)
      as (Hcfg & Hcli & dial & sign & pair & Ht & Hd & Hs).
    assert (Hc : cli (self w) = Some client) by now rewrite Hself.
    split.
    + specialize (Hcli _ Hc). destruct Hcfg as (H1 & H2 & H3 & H4 & H5 & H6 & H7).
      destruct (self (snd (Issue E ctx commonName conf w))), (self w); cbn in *.
      congruence.
    + rewrite Ht, drop_app_length.
      destruct Hd as [->|(Hn & _)]; [|congruence]. cbn [app].
      destruct Hs as [[-> ->]|(c & csrPEM & keyPEM & buf & _ & _ & _ & -> & [->|(b & -> & _)])];
        repeat constructor.
Qed.

(** ** Chains *)

Lemma mapM_as_string_strings (es : list string) :
  mapM as_string (VString <$> es) = Some es.
Proof. induction es as [|e es IH]; [reflexivity|]. cbn. now rewrite IH. Qed.

(** The three branches of the policy, in the order they are tried. *)
Lemma chain_resolution_ca_chain (response : gmap string value) leaf es :
  response !! "certificate" = Some (VString leaf) ->
  response !! "ca_chain" = Some (VSlice (VString <$> es)) ->
  chain_resolution response = Some (leaf :: es).
Proof.
  intros H1 H2. unfold chain_resolution. rewrite H1, H2. cbn.
  now rewrite mapM_as_string_strings.
Qed.

Lemma chain_resolution_issuing_ca (response : gmap string value) leaf ca :
  response !! "certificate" = Some (VString leaf) ->
  response !! "ca_chain" = None ->
  response !! "issuing_ca" = Some (VString ca) ->
  chain_resolution response = Some [leaf; ca].
Proof. intros H1 H2 H3. unfold chain_resolution. now rewrite H1, H2, H3. Qed.

Lemma chain_resolution_leaf_only (response : gmap string value) leaf :
  response !! "certificate" = Some (VString leaf) ->
  response !! "ca_chain" = None ->
  response !! "issuing_ca" = None ->
  chain_resolution response = Some [leaf].
Proof. intros H1 H2 H3. unfold chain_resolution. now rewrite H1, H2, H3. Qed.

Lemma chain_resolution_leaf (response : gmap string value) entries :
  chain_resolution response = Some entries ->
  exists leaf more,
    entries = leaf :: more /\ response !! "certificate" = Some (VString leaf).
Proof.
  unfold chain_resolution.
  destruct (response !! "certificate") as [[| | |leaf| |]|]; try discriminate.
  cbn [mbind option_bind as_string].
  destruct (response !! "ca_chain") as [chain|].
  - destruct (as_strings chain) as [es|]; [|discriminate].
    intros [= <-]. eauto.
  - destruct (response !! "issuing_ca") as [ca|].
    + destruct (as_string ca); [|discriminate]. intros [= <-]. eauto.
    + intros [= <-]. eauto.
Qed.

Lemma pem_join E entries : forall ders,
  Forall2 (pem_single E) entries ders ->
  entries <> [] ->
  pem_Certificates E (join_pem entries) = ders.
Proof.
  induction entries as [|e more IH]; intros ders H Hne; [congruence|].
  inversion H as [|? der ? ders' [Hone Hmore] Hrest]; subst.
  destruct more as [|e' more].
  - inversion Hrest; subst. exact Hone.
  - change (join_pem (e :: e' :: more)) with (e +:+ newline +:+ join_pem (e' :: more)).
    rewrite Hmore. f_equal. apply IH; [assumption | discriminate].
Qed.

Lemma pem_head E leaf der more :
  pem_single E leaf der ->
  pem_Certificates E (join_pem (leaf :: more)) !! 0%nat = Some der.
Proof.
  intros [Hone Hmore]. destruct more as [|e more].
  - cbn [join_pem]. now rewrite Hone.
  - change (join_pem (leaf :: e :: more)) with (leaf +:+ newline +:+ join_pem (e :: more)).
    now rewrite Hmore.
Qed.

(** ** The asynchronous model *)

Lemma Assemble_success E chainPEM keyPEM c :
  aws.Assemble E chainPEM keyPEM = inl c ->
  exists der more leaf key,
    pem_Certificates E chainPEM = der :: more /\
    x509_ParseCertificate E der = inl leaf /\
    x509_ParsePrivateKey E keyPEM = inl key /\
    key_matches E key leaf = true /\
    c = {| tls.Certificate := der :: more; tls.PrivateKey := key;
           tls.Leaf := Some leaf |}.
Proof.
  unfold aws.Assemble.
  destruct (pem_Certificates E chainPEM) as [|der more]; [discriminate|].
  destruct (x509_ParseCertificate E der) as [leaf|] eqn:Hl; [|discriminate].
  destruct (x509_ParsePrivateKey E keyPEM) as [key|] eqn:Hk; [|discriminate].
  destruct (key_matches E key leaf) eqn:Hm; [|discriminate].
  intros [= <-]. exists der, more, leaf, key. repeat split; auto.
Qed.

Lemma aws_Issue_success E i ctx commonName conf c :
  aws.Issue E i ctx commonName conf = inl c ->
  exists csrPEM keyPEM handle leafPEM chainPEM,
    csr_FromCertConfig E commonName conf = inl (csrPEM, keyPEM) /\
    aws.IssueCertificate (aws.Client_ i) (aws.CertificateAuthorityARN i) csrPEM
      (aws.TimeToLive i) (aws.SigningAlgorithm i) = inl handle /\
    aws.WaitUntilCertificateIssued (aws.Client_ i) ctx
      (aws.CertificateAuthorityARN i) handle = aws.Issued /\
    aws.GetCertificate (aws.Client_ i) (aws.CertificateAuthorityARN i) handle
      = inl (leafPEM, chainPEM) /\
    aws.Assemble E (leafPEM +:+ newline +:+ chainPEM) keyPEM = inl c.
Proof.
  unfold aws.Issue.
  destruct (csr_FromCertConfig E commonName conf) as [[csrPEM keyPEM]|] eqn:Hc;
    [|discriminate].
  destruct (aws.IssueCertificate _ _ _ _ _) as [handle|] eqn:Hi; [|discriminate].
  destruct (aws.WaitUntilCertificateIssued _ _ _ _) eqn:Hw; try discriminate.
  destruct (aws.GetCertificate _ _ _) as [[leafPEM chainPEM]|] eqn:Hg; [|discriminate].
  intros H. exists csrPEM, keyPEM, handle, leafPEM, chainPEM. repeat split; auto.
Qed.

(** ** The test double keeps the contracts *)

Lemma double_keeps_chain : X509KeyPair_keeps_chain double.env.
Proof.
  intros b k c. cbn. unfold double.X509KeyPair.
  destruct (double.lines b) as [|der more]; [discriminate|].
  destruct (double.matches k (double.parse der)); [|discriminate].
  now intros [= <-].
Qed.

Lemma double_checks_pair : X509KeyPair_checks_pair double.env.
Proof.
  intros b k c. cbn. unfold double.X509KeyPair.
  destruct (double.lines b) as [|der more]; [discriminate|].
  destruct (double.matches k (double.parse der)) eqn:Hm; [|discriminate].
  intros [= <-]. exists der, more, (double.parse der). repeat split; exact Hm.
Qed.

Lemma double_keeps_key : X509KeyPair_keeps_key double.env.
Proof.
  intros b k c. cbn. unfold double.X509KeyPair.
  destruct (double.lines b) as [|der more]; [discriminate|].
  destruct (double.matches k (double.parse der)); [|discriminate].
  now intros [= <-].
Qed.

Lemma double_leaf_single : pem_single double.env double.leaf_pem "somename.com".
Proof. split; [reflexivity | intros more; reflexivity]. Qed.

Lemma double_ca_single : pem_single double.env double.ca_pem "Certify Test Cert".
Proof. split; [reflexivity | intros more; reflexivity]. Qed.

Lemma double_root_single : pem_single double.env "Root" "Root".
Proof. split; [reflexivity | intros more; reflexivity]. Qed.

(** C2.  A certificate returned by [Issue] was built from the secret of
    the sign call by the chain-resolution policy: with a [ca_chain]
    sequence the chain is the leaf followed by its entries in order;
    else with an [issuing_ca] it is the leaf and the issuing CA; else it
    is the leaf alone.  The text paired with the key is that chain, one
    entry per line, so that with each entry the PEM of one certificate
    the returned chain is those certificates, in that order. *)
Theorem Issue_chain_resolution E ctx commonName conf w c err :
  X509KeyPair_keeps_chain E ->
  fst (Issue E ctx commonName conf w) = Returned (Some c, err) ->
  exists w1 w2 csrPEM secret entries,
    signCSR E (self w1) ctx (sign_opts (self w) commonName csrPEM) w1
      = (Returned (Some secret, None), w2) /\
    chain_resolution (api.Data secret) = Some entries /\
    tls.Certificate c = pem_Certificates E (join_pem entries) /\
    forall ders, Forall2 (pem_single E) entries ders -> tls.Certificate c = ders.
Proof.
  intros Hchain H.
  destruct (Issue_success _ _ _ _ _ _ _ H)
    as (csrPEM & keyPEM & w1 & w2 & secret & entries & tlsCert & der & more &
        _ & _ & Hs & Hr & Hx & _ & -> & _).
  exists w1, w2, csrPEM, secret, entries.
  split; [exact Hs|]. split; [exact Hr|].
  cbn [tls.with_Leaf tls.Certificate]. rewrite (Hchain _ _ _ Hx).
  split; [reflexivity|]. intros ders Hd. apply pem_join; [exact Hd|].
  destruct (chain_resolution_leaf _ _ Hr) as (leaf & rest & -> & _). discriminate.
Qed.

Lemma Issue_chain_resolution_witness :
  exists w1 w2 csrPEM secret entries,
    signCSR double.env (self w1) ctx_Background
      (sign_opts (self (double.issuer "both")) "somename.com" csrPEM) w1
      = (Returned (Some secret, None), w2) /\
    chain_resolution (api.Data secret) = Some entries /\
    tls.Certificate (double.issued ["somename.com"; "Certify Test Cert"; "Root"])
      = pem_Certificates double.env (join_pem entries) /\
    forall ders, Forall2 (pem_single double.env) entries ders ->
      tls.Certificate (double.issued ["somename.com"; "Certify Test Cert"; "Root"])
      = ders.
Proof.
  apply (Issue_chain_resolution double.env ctx_Background "somename.com" None
           (double.issuer "both")
           (double.issued ["somename.com"; "Certify Test Cert"; "Root"]) None).
  - exact double_keeps_chain.
  - vm_compute. reflexivity.
Defined.

(** The policy on the four shapes of response: a chain, an issuing CA,
    both (the chain wins), neither. *)
Example chain_resolution_shapes :
  chain_resolution (api.Data double.with_chain)
    = Some [double.leaf_pem; double.ca_pem] /\
  chain_resolution (api.Data double.with_issuing_ca)
    = Some [double.leaf_pem; double.ca_pem] /\
  chain_resolution (api.Data double.with_both)
    = Some [double.leaf_pem; double.ca_pem; "Root"] /\
  chain_resolution (api.Data double.leaf_only) = Some [double.leaf_pem].
Proof. repeat split; vm_compute; reflexivity. Qed.

(** C4.  With [tls.X509KeyPair] doing what its documentation says, the
    private key of every certificate [Issue] returns belongs to the
    public key of its leaf, on either backend; and when the key handed
    to the assembly does not belong to the first certificate of the
    chain, [Issue] returns an error and no certificate (the assembler of
    the asynchronous backend: a PairingError). *)
Theorem key_pairs_with_leaf E :
  X509KeyPair_checks_pair E ->
  X509KeyPair_keeps_chain E ->
  X509KeyPair_keeps_key E ->
  (forall ctx commonName conf w c err,
     fst (Issue E ctx commonName conf w) = Returned (Some c, err) ->
     err = None /\
     exists leaf, tls.Leaf c = Some leaf /\
                  key_matches E (tls.PrivateKey c) leaf = true) /\
  (forall ctx commonName conf w events chainPEM keyPEM der more leaf key,
     trace (snd (Issue E ctx commonName conf w)) = trace w ++ events ->
     In (Pair chainPEM keyPEM) events ->
     pem_Certificates E chainPEM = der :: more ->
     x509_ParseCertificate E der = inl leaf ->
     x509_ParsePrivateKey E keyPEM = inl key ->
     key_matches E key leaf = false ->
     exists e, fst (Issue E ctx commonName conf w) = Returned (None, Some e)) /\
  (forall i ctx commonName conf c,
     aws.Issue E i ctx commonName conf = inl c ->
     exists leaf, tls.Leaf c = Some leaf /\
                  key_matches E (tls.PrivateKey c) leaf = true) /\
  (forall chainPEM keyPEM der more leaf key,
     pem_Certificates E chainPEM = der :: more ->
     x509_ParseCertificate E der = inl leaf ->
     x509_ParsePrivateKey E keyPEM = inl key ->
     key_matches E key leaf = false ->
     aws.Assemble E chainPEM keyPEM = inr aws.PairingError).
Proof.
  intros Hpair Hchain Hkey. split; [|split; [|split]].
  - intros ctx commonName conf w c err H.
    destruct (Issue_success _ _ _ _ _ _ _ H)
      as (csrPEM & keyPEM & w1 & w2 & secret & entries & tlsCert & der & more &
          _ & _ & _ & _ & Hx & Hc & -> & ->).
    split; [reflexivity|].
    destruct (Hpair _ _ _ Hx) as (der' & more' & leaf & Hc' & Hl & Hm).
    rewrite Hc in Hc'. injection Hc' as <- <-.
    exists leaf. cbn [tls.with_Leaf tls.Leaf tls.PrivateKey].
    unfold ParseCertificate. rewrite Hl. auto.
  - intros ctx commonName conf w events chainPEM keyPEM der more leaf key
           Ht Hin Hpem Hl Hk Hm.
    destruct (Issue_run E ctx commonName conf w)
      as (_ & _ & dial & sign & pair & Ht' & Hd & Hs).
    rewrite Ht in Ht'. apply new_events in Ht'. subst events.
    assert (Hres : fst (Issue E ctx commonName conf w)
                   = key_pair_result E chainPEM keyPEM).
    { destruct Hd as [->|(_ & cf & ->)];
        destruct Hs as [[-> ->]|(c & csrPEM & k & buf & _ & _ & _ & -> &
                                   [->|(b & -> & Hres)])];
        simpl in Hin;
        repeat match goal with
               | H : _ \/ _ |- _ => destruct H
               | H : False |- _ => destruct H
               end;
        try discriminate;
        match goal with
        | H : Pair _ _ = Pair _ _ |- _ => injection H as <- <-
        end; exact Hres. }
    rewrite Hres. unfold key_pair_result.
    destruct (tls_X509KeyPair E chainPEM keyPEM) as [tlsCert|e] eqn:Hx; [|eauto].
    exfalso.
    destruct (Hpair _ _ _ Hx) as (der' & more' & leaf' & Hc' & Hl' & Hm').
    rewrite (Hchain _ _ _ Hx), Hpem in Hc'. injection Hc' as <- <-.
    rewrite Hl in Hl'. injection Hl' as <-.
    rewrite (Hkey _ _ _ Hx) in Hk. injection Hk as <-. congruence.
  - intros i ctx commonName conf c H.
    destruct (aws_Issue_success _ _ _ _ _ _ H)
      as (csrPEM & keyPEM & handle & leafPEM & chainPEM & _ & _ & _ & _ & Ha).
    destruct (Assemble_success _ _ _ _ Ha) as (der & more & leaf & key & _ & _ & _ & Hm & ->).
    exists leaf. auto.
  - intros chainPEM keyPEM der more leaf key Hpem Hl Hk Hm.
    unfold aws.Assemble. now rewrite Hpem, Hl, Hk, Hm.
Qed.

Lemma key_pairs_with_leaf_witness :
  (exists leaf,
     tls.Leaf (double.issued ["somename.com"; "Certify Test Cert"]) = Some leaf /\
     key_matches double.env
       (tls.PrivateKey (double.issued ["somename.com"; "Certify Test Cert"])) leaf
     = true) /\
  (exists e,
     fst (Issue double.env ctx_Background "other.com" None (double.issuer "issuing"))
     = Returned (None, Some e)).
Proof.
  pose proof (key_pairs_with_leaf double.env double_checks_pair double_keeps_chain
                double_keeps_key) as (Hok & Hbad & _).
  split.
  - apply (Hok ctx_Background "somename.com" None (double.issuer "chain")
             (double.issued ["somename.com"; "Certify Test Cert"]) None).
    vm_compute. reflexivity.
  - apply (Hbad ctx_Background "other.com" None (double.issuer "issuing")
             (trace (snd (Issue double.env ctx_Background "other.com" None
                            (double.issuer "issuing"))))
             (double.leaf_pem +:+ newline +:+ double.ca_pem) "other.com"
             "somename.com" ["Certify Test Cert"] (double.parse "somename.com")
             "other.com").
    + reflexivity.
    + vm_compute. right. left. reflexivity.
    + reflexivity.
    + reflexivity.
    + reflexivity.
    + reflexivity.
Defined.

(** C5.  The first entry of the chain of every certificate [Issue]
    returns is the leaf: the certificate whose PEM the sign response
    carries in its [certificate] field on the synchronous backend, and
    the certificate fetched as the leaf on the asynchronous one. *)
Theorem chain_head_is_leaf E :
  X509KeyPair_keeps_chain E ->
  (forall ctx commonName conf w c err,
     fst (Issue E ctx commonName conf w) = Returned (Some c, err) ->
     exists w1 w2 csrPEM secret leafPEM,
       signCSR E (self w1) ctx (sign_opts (self w) commonName csrPEM) w1
         = (Returned (Some secret, None), w2) /\
       api.Data secret !! "certificate" = Some (VString leafPEM) /\
       forall der, pem_single E leafPEM der -> tls.Certificate c !! 0%nat = Some der) /\
  (forall i ctx commonName conf c,
     aws.Issue E i ctx commonName conf = inl c ->
     exists csrPEM keyPEM handle leafPEM chainPEM,
       csr_FromCertConfig E commonName conf = inl (csrPEM, keyPEM) /\
       aws.IssueCertificate (aws.Client_ i) (aws.CertificateAuthorityARN i) csrPEM
         (aws.TimeToLive i) (aws.SigningAlgorithm i) = inl handle /\
       aws.GetCertificate (aws.Client_ i) (aws.CertificateAuthorityARN i) handle
         = inl (leafPEM, chainPEM) /\
       forall der, pem_single E leafPEM der -> tls.Certificate c !! 0%nat = Some der).
Proof.
  intros Hchain. split.
  - intros ctx commonName conf w c err H.
    destruct (Issue_success _ _ _ _ _ _ _ H)
      as (csrPEM & keyPEM & w1 & w2 & secret & entries & tlsCert & d & more &
          _ & _ & Hs & Hr & Hx & _ & -> & _).
    destruct (chain_resolution_leaf _ _ Hr) as (leafPEM & rest & -> & Hleaf).
    exists w1, w2, csrPEM, secret, leafPEM.
    split; [exact Hs|]. split; [exact Hleaf|].
    intros der Hder. cbn [tls.with_Leaf tls.Certificate].
    rewrite (Hchain _ _ _ Hx). now apply pem_head.
  - intros i ctx commonName conf c H.
    destruct (aws_Issue_success _ _ _ _ _ _ H)
      as (csrPEM & keyPEM & handle & leafPEM & chainPEM & Hc & Hi & _ & Hg & Ha).
    destruct (Assemble_success _ _ _ _ Ha) as (d & more & leaf & key & Hpem & _ & _ & _ & ->).
    exists csrPEM, keyPEM, handle, leafPEM, chainPEM.
    split; [exact Hc|]. split; [exact Hi|]. split; [exact Hg|].
    intros der [_ Hmore]. cbn [tls.Certificate]. rewrite <- Hpem, Hmore. reflexivity.
Qed.

Lemma chain_head_is_leaf_witness :
  exists w1 w2 csrPEM secret leafPEM,
    signCSR double.env (self w1) ctx_Background
      (sign_opts (self (double.issuer "chain")) "somename.com" csrPEM) w1
      = (Returned (Some secret, None), w2) /\
    api.Data secret !! "certificate" = Some (VString leafPEM) /\
    forall der, pem_single double.env leafPEM der ->
      tls.Certificate (double.issued ["somename.com"; "Certify Test Cert"]) !! 0%nat
      = Some der.
Proof.
  apply (proj1 (chain_head_is_leaf double.env double_keeps_chain)
           ctx_Background "somename.com" None (double.issuer "chain")
           (double.issued ["somename.com"; "Certify Test Cert"]) None).
  vm_compute. reflexivity.
Defined.

(** C6.  Every certificate [Issue] returns carries a parsed leaf, and it
    is the parse of the first entry of its chain, on either backend. *)
Theorem leaf_is_parsed E :
  X509KeyPair_checks_pair E ->
  (forall ctx commonName conf w c err,
     fst (Issue E ctx commonName conf w) = Returned (Some c, err) ->
     exists der more leaf,
       tls.Certificate c = der :: more /\
       x509_ParseCertificate E der = inl leaf /\
       tls.Leaf c = Some leaf) /\
  (forall i ctx commonName conf c,
     aws.Issue E i ctx commonName conf = inl c ->
     exists der more leaf,
       tls.Certificate c = der :: more /\
       x509_ParseCertificate E der = inl leaf /\
       tls.Leaf c = Some leaf).
Proof.
  intros Hpair. split.
  - intros ctx commonName conf w c err H.
    destruct (Issue_success _ _ _ _ _ _ _ H)
      as (csrPEM & keyPEM & w1 & w2 & secret & entries & tlsCert & der & more &
          _ & _ & _ & _ & Hx & Hc & -> & _).
    destruct (Hpair _ _ _ Hx) as (der' & more' & leaf & Hc' & Hl & _).
    rewrite Hc in Hc'. injection Hc' as <- <-.
    exists der, more, leaf. cbn [tls.with_Leaf tls.Certificate tls.Leaf].
    unfold ParseCertificate. rewrite Hl. auto.
  - intros i ctx commonName conf c H.
    destruct (aws_Issue_success _ _ _ _ _ _ H)
      as (csrPEM & keyPEM & handle & leafPEM & chainPEM & _ & _ & _ & _ & Ha).
    destruct (Assemble_success _ _ _ _ Ha) as (der & more & leaf & key & _ & Hl & _ & _ & ->).
    exists der, more, leaf. auto.
Qed.

Lemma leaf_is_parsed_witness :
  exists der more leaf,
    tls.Certificate (double.issued ["somename.com"; "Certify Test Cert"]) = der :: more /\
    x509_ParseCertificate double.env der = inl leaf /\
    tls.Leaf (double.issued ["somename.com"; "Certify Test Cert"]) = Some leaf.
Proof.
  apply (proj1 (leaf_is_parsed double.env double_checks_pair)
           ctx_Background "somename.com" None (double.issuer "chain")
           (double.issued ["somename.com"; "Certify Test Cert"]) None).
  vm_compute. reflexivity.
Defined.

Lemma session_initialisation_witness :
  self (snd (Issue double.env ctx_Background "somename.com" None (double.issuer "chain")))
  = self (double.issuer "chain") /\
  Forall (fun e => is_Dial e = false)
    (skipn (length (trace (double.issuer "chain")))
       (trace (snd (Issue double.env ctx_Background "somename.com" None
                      (double.issuer "chain"))))).
Proof.
  exact (proj2 (proj2 (proj2
           (session_initialisation double.env 2 [0; 1]%nat (double.issuer "chain"))))
           double.client "chain" ctx_Background "somename.com" None eq_refl).
Defined.

(** The asynchronous model on the test double: the chain is the leaf and
    the CA certificate, and the leaf is parsed. *)
Example aws_Issue_double :
  aws.Issue double.env double.aws_issuer ctx_Background "somename.com" None
  = inl (double.issued ["somename.com"; "Certify Test Cert"]).
Proof. vm_compute. reflexivity. Qed.

(** * Further properties of the code *)

Lemma Issue_with_client E ctx commonName conf w c :
  cli (self w) = Some c ->
  Issue E ctx commonName conf w = issue_with_session E ctx commonName conf w.
Proof. intros Hc. now rewrite Issue_eq, Hc. Qed.

(** Once the sign call has handed back a secret and no error, [Issue]
    is lines 105-123 on that secret. *)
Lemma Issue_signed E ctx commonName conf w c csrPEM keyPEM s :
  cli (self w) = Some c ->
  csr_FromCertConfig E commonName conf = inl (csrPEM, keyPEM) ->
  fst (signCSR E (self w) ctx (sign_opts (self w) commonName csrPEM) w)
    = Returned (Some s, None) ->
  Issue E ctx commonName conf w =
  issue_from_secret E s keyPEM
    (snd (signCSR E (self w) ctx (sign_opts (self w) commonName csrPEM) w)).
Proof.
  intros Hc Hcsr Hs.
  rewrite (Issue_with_client _ _ _ _ _ _ Hc), issue_with_session_eq, Hcsr.
  destruct (signCSR E (self w) ctx _ w) as [r w1]. cbn [fst snd] in *. now subst r.
Qed.

Lemma tls_Clone_eq (t : tls.config) : tls.Clone t = t.
Proof. now destruct t. Qed.

Lemma issue_with_session_shape E ctx commonName conf w cert err :
  fst (issue_with_session E ctx commonName conf w) = Returned (cert, err) ->
  is_Some cert /\ err = None \/ cert = None /\ is_Some err.
Proof.
  rewrite issue_with_session_eq.
  destruct (csr_FromCertConfig E commonName conf) as [[csrPEM keyPEM]|e].
  2:{ intros [= <- <-]. right. eauto. }
  destruct (signCSR E (self w) ctx _ w) as [[[[s|] [e|]]|p] w1]; cbn [fst];
    try discriminate; try (intros [= <- <-]; right; eauto).
  rewrite issue_from_secret_eq.
  destruct (chain_resolution (api.Data s)); cbn [fst]; [|discriminate].
  unfold key_pair_result.
  destruct (tls_X509KeyPair E _ keyPEM) as [c0|e]; [|intros [= <- <-]; right; eauto].
  destruct (tls.Certificate c0); [discriminate|]. intros [= <- <-]. left. eauto.
Qed.

(** X1.  Whenever [Issue] returns, it returns either a certificate and
    no error, or an error and no certificate: never both, and never
    neither. *)
Theorem Issue_certificate_or_error E ctx commonName conf w cert err :
  fst (Issue E ctx commonName conf w) = Returned (cert, err) ->
  is_Some cert /\ err = None \/ cert = None /\ is_Some err.
Proof.
  rewrite Issue_eq. destruct (cli (self w)).
  - apply issue_with_session_shape.
  - destruct (connect E ctx w) as [[[e|]|p] w1]; cbn [fst].
    + intros [= <- <-]. right. eauto.
    + apply issue_with_session_shape.
    + discriminate.
Qed.

Lemma Issue_certificate_or_error_witness :
  is_Some (Some (double.issued ["somename.com"; "Certify Test Cert"])) /\
  @None error = None \/
  Some (double.issued ["somename.com"; "Certify Test Cert"]) = None /\
  is_Some (@None error).
Proof.
  apply (Issue_certificate_or_error double.env ctx_Background "somename.com" None
           (double.issuer "chain")).
  vm_compute. reflexivity.
Defined.

(** X2.  When [connect] returns no error, the issuer had a URL; the
    client was built from a configuration whose address is that URL and
    whose TLS configuration is a copy of the issuer's (the default one
    if the issuer has none); the issuer now holds that client with its
    token set to the issuer's Token; and [api.NewClient] was called
    once. *)
Theorem connect_establishes_session E ctx w :
  fst (connect E ctx w) = Returned None ->
  exists url conf c,
    URL (self w) = Some url /\
    api.Address conf = url /\
    api.TLSClientConfig conf =
      match TLSConfig (self w) with
      | Some t => Some t
      | None => api.TLSClientConfig (api_DefaultConfig E)
      end /\
    api_NewClient E conf = inl c /\
    cli (self (snd (connect E ctx w))) = Some (api.SetToken c (Token (self w))) /\
    api.token (api.SetToken c (Token (self w))) = Token (self w) /\
    trace (snd (connect E ctx w)) = trace w ++ [Dial conf].
Proof.
  unfold connect. go.
  destruct (URL (self w)) as [url|]; go; [|discriminate].
  destruct (api_NewClient E _) as [c|e] eqn:Hn; go; [|discriminate].
  intros _.
  match type of Hn with api_NewClient E ?cf = _ => exists url, cf, c end.
  split; [reflexivity|]. split; [reflexivity|].
  split; [|split; [exact Hn|repeat split]].
  destruct (TLSConfig (self w)) as [t|]; cbn; [now rewrite tls_Clone_eq | reflexivity].
Qed.

Lemma connect_establishes_session_witness :
  exists url conf c,
    URL (self faults.with_tls) = Some url /\
    api.Address conf = url /\
    api.TLSClientConfig conf =
      match TLSConfig (self faults.with_tls) with
      | Some t => Some t
      | None => api.TLSClientConfig (api_DefaultConfig double.env)
      end /\
    api_NewClient double.env conf = inl c /\
    cli (self (snd (connect double.env ctx_Background faults.with_tls)))
      = Some (api.SetToken c (Token (self faults.with_tls))) /\
    api.token (api.SetToken c (Token (self faults.with_tls)))
      = Token (self faults.with_tls) /\
    trace (snd (connect double.env ctx_Background faults.with_tls))
      = trace faults.with_tls ++ [Dial conf].
Proof.
  apply (connect_establishes_session double.env ctx_Background faults.with_tls).
  reflexivity.
Defined.

(** X3.  When [connect] fails, [Issue] returns its error and no
    certificate, the issuer is left without a client, and nothing
    happens after the dial: no CSR is sent and no key is paired. *)
Theorem Issue_connect_error E ctx commonName conf w e :
  cli (self w) = None ->
  fst (connect E ctx w) = Returned (Some e) ->
  fst (Issue E ctx commonName conf w) = Returned (None, Some e) /\
  cli (self (snd (Issue E ctx commonName conf w))) = None /\
  exists dialled,
    trace (snd (Issue E ctx commonName conf w)) = trace w ++ [Dial dialled].
Proof.
  intros Hc He. rewrite Issue_eq, Hc.
  destruct (connect_run E ctx w) as [_ Hrun].
  destruct (connect E ctx w) as [[[e'|]|p] w1]; cbn [fst snd] in *; try discriminate.
  injection He as ->. split; [reflexivity|].
  destruct Hrun as [[_ [p Hp]]|(cf & Ht & [[Hn _]|[_ Hcli]])]; try discriminate.
  eauto.
Qed.

Lemma Issue_connect_error_witness :
  fst (Issue faults.no_vault ctx_Background "somename.com" None (double.fresh "chain"))
    = Returned (None, Some faults.refused) /\
  cli (self (snd (Issue faults.no_vault ctx_Background "somename.com" None
                    (double.fresh "chain")))) = None /\
  exists dialled,
    trace (snd (Issue faults.no_vault ctx_Background "somename.com" None
                  (double.fresh "chain")))
    = trace (double.fresh "chain") ++ [Dial dialled].
Proof.
  apply (Issue_connect_error faults.no_vault ctx_Background "somename.com" None
           (double.fresh "chain") faults.refused); reflexivity.
Defined.

(** X4.  An issuer with neither a client nor a URL, such as one made by
    [FromClient] from a nil client, makes [Issue] panic with a nil
    dereference before anything leaves the process; the issuer is as it
    was. *)
Theorem Issue_without_URL_panics E ctx commonName conf w :
  cli (self w) = None ->
  URL (self w) = None ->
  Issue E ctx commonName conf w = (Panicked NilDereference, w).
Proof.
  intros Hc Hu. rewrite Issue_eq, Hc. unfold connect. go. rewrite Hu. reflexivity.
Qed.

Lemma Issue_without_URL_panics_witness :
  Issue double.env ctx_Background "somename.com" None
    {| self := FromClient None "web"; trace := [] |}
  = (Panicked NilDereference, {| self := FromClient None "web"; trace := [] |}).
Proof.
  apply (Issue_without_URL_panics double.env ctx_Background "somename.com" None
           {| self := FromClient None "web"; trace := [] |}); reflexivity.
Defined.

(** X5.  When the CSR builder fails, [Issue] sends no request at all;
    on an issuer that has a client it returns the builder's error as it
    is and leaves the issuer and the trace untouched. *)
Theorem Issue_csr_error E ctx commonName conf w e :
  csr_FromCertConfig E commonName conf = inr e ->
  (forall c, cli (self w) = Some c ->
     Issue E ctx commonName conf w = (Returned (None, Some e), w)) /\
  (forall events r,
     trace (snd (Issue E ctx commonName conf w)) = trace w ++ events ->
     ~ In (Send r) events).
Proof.
  intros Hcsr. split.
  - intros c Hc.
    now rewrite (Issue_with_client _ _ _ _ _ _ Hc), issue_with_session_eq, Hcsr.
  - intros events r Ht Hin.
    destruct (Issue_run E ctx commonName conf w)
      as (_ & _ & dial & sign & pair & Ht' & Hd & Hs).
    rewrite Ht in Ht'. apply new_events in Ht'. subst events.
    destruct Hs as [[-> ->]|(c & csrPEM & keyPEM & buf & _ & Hcsr' & _)]; [|congruence].
    rewrite app_nil_r in Hin.
    destruct Hd as [->|(_ & cf & ->)]; simpl in Hin; intuition discriminate.
Qed.

Lemma Issue_csr_error_witness :
  Issue faults.no_csr ctx_Background "somename.com" None (double.issuer "chain")
  = (Returned (None, Some faults.no_key), double.issuer "chain").
Proof.
  exact (proj1 (Issue_csr_error faults.no_csr ctx_Background "somename.com" None
                  (double.issuer "chain") faults.no_key eq_refl)
           double.client eq_refl).
Defined.

(** X6.  When the sign call comes back with an error and the response
    is missing or its status is not 404, [Issue] returns that error and
    no certificate: the body is not looked at and no key is paired; the
    one request is all that left the process. *)
Theorem Issue_transport_error E ctx commonName conf w c csrPEM keyPEM buf resp e :
  cli (self w) = Some c ->
  csr_FromCertConfig E commonName conf = inl (csrPEM, keyPEM) ->
  json_Marshal E (sign_opts (self w) commonName csrPEM) = inl buf ->
  api_RawRequestWithContext E c ctx
    (sign_request (self w) c (sign_opts (self w) commonName csrPEM) buf)
    = (resp, Some e) ->
  (forall rsp, resp = Some rsp -> api.StatusCode rsp <> 404) ->
  Issue E ctx commonName conf w =
  (Returned (None, Some e),
   {| self := self w;
      trace := trace w ++
               [Send (sign_request (self w) c
                        (sign_opts (self w) commonName csrPEM) buf)] |}).
Proof.
  intros Hc Hcsr Hj Hraw Hst.
  rewrite (Issue_with_client _ _ _ _ _ _ Hc), issue_with_session_eq, Hcsr.
  rewrite (signCSR_eq _ _ _ _ _ _ _ Hc Hj), Hraw. unfold sign_reply.
  destruct resp as [rsp|]; [|reflexivity].
  destruct (Z.eqb_spec (api.StatusCode rsp) 404) as [H404|_]; [|reflexivity].
  now destruct (Hst rsp eq_refl).
Qed.

Lemma Issue_transport_error_witness :
  Issue (faults.replying 500 "chain" (Some faults.refused)) ctx_Background
    "somename.com" None (double.issuer "chain")
  = (Returned (None, Some faults.refused),
     {| self := self (double.issuer "chain");
        trace := trace (double.issuer "chain") ++
                 [Send (sign_request (self (double.issuer "chain")) double.client
                          (sign_opts (self (double.issuer "chain")) "somename.com"
                             "csr for somename.com")
                          "csr for somename.com")] |}).
Proof.
  apply (Issue_transport_error (faults.replying 500 "chain" (Some faults.refused))
           ctx_Background "somename.com" None (double.issuer "chain") double.client
           "csr for somename.com" "somename.com" "csr for somename.com"
           (Some {| api.StatusCode := 500; api.Body := "chain" |}) faults.refused);
    try reflexivity.
  intros rsp [= <-]. discriminate.
Defined.

(** X7.  When the sign call succeeds with a status other than 404 but
    the body does not parse, [Issue] returns the parse error and no
    certificate, and pairs no key. *)
Theorem Issue_parse_error E ctx commonName conf w c csrPEM keyPEM buf rsp
  secret parseError unread :
  cli (self w) = Some c ->
  csr_FromCertConfig E commonName conf = inl (csrPEM, keyPEM) ->
  json_Marshal E (sign_opts (self w) commonName csrPEM) = inl buf ->
  api_RawRequestWithContext E c ctx
    (sign_request (self w) c (sign_opts (self w) commonName csrPEM) buf)
    = (Some rsp, None) ->
  api.StatusCode rsp <> 404 ->
  api_ParseSecret E (api.Body rsp) = ((secret, Some parseError), unread) ->
  Issue E ctx commonName conf w =
  (Returned (None, Some parseError),
   {| self := self w;
      trace := trace w ++
               [Send (sign_request (self w) c
                        (sign_opts (self w) commonName csrPEM) buf)] |}).
Proof.
  intros Hc Hcsr Hj Hraw Hst Hparse.
  rewrite (Issue_with_client _ _ _ _ _ _ Hc), issue_with_session_eq, Hcsr.
  rewrite (signCSR_eq _ _ _ _ _ _ _ Hc Hj), Hraw. unfold sign_reply.
  destruct (Z.eqb_spec (api.StatusCode rsp) 404) as [H404|_]; [contradiction|].
  rewrite Hparse. cbn [fst]. now destruct secret.
Qed.

Lemma Issue_parse_error_witness :
  Issue (faults.replying 200 "<html>" None) ctx_Background
    "somename.com" None (double.issuer "chain")
  = (Returned (None, Some (errorString "invalid character")),
     {| self := self (double.issuer "chain");
        trace := trace (double.issuer "chain") ++
                 [Send (sign_request (self (double.issuer "chain")) double.client
                          (sign_opts (self (double.issuer "chain")) "somename.com"
                             "csr for somename.com")
                          "csr for somename.com")] |}).
Proof.
  apply (Issue_parse_error (faults.replying 200 "<html>" None)
           ctx_Background "somename.com" None (double.issuer "chain") double.client
           "csr for somename.com" "somename.com" "csr for somename.com"
           {| api.StatusCode := 200; api.Body := "<html>" |} None
           (errorString "invalid character") "");
    try reflexivity.
  discriminate.
Defined.

(** X8.  When the options cannot be encoded, [Issue] on an issuer that
    has a client returns the encoder's error and no certificate without
    sending anything: the issuer and the trace are untouched. *)
Theorem Issue_marshal_error E ctx commonName conf w c csrPEM keyPEM e :
  cli (self w) = Some c ->
  csr_FromCertConfig E commonName conf = inl (csrPEM, keyPEM) ->
  json_Marshal E (sign_opts (self w) commonName csrPEM) = inr e ->
  Issue E ctx commonName conf w = (Returned (None, Some e), w).
Proof.
  intros Hc Hcsr Hj.
  rewrite (Issue_with_client _ _ _ _ _ _ Hc), issue_with_session_eq, Hcsr.
  unfold signCSR, SetJSONBody. now rewrite Hc, Hj.
Qed.

Lemma Issue_marshal_error_witness :
  Issue faults.no_json ctx_Background "somename.com" None (double.issuer "chain")
  = (Returned (None, Some faults.unsupported), double.issuer "chain").
Proof.
  apply (Issue_marshal_error faults.no_json ctx_Background "somename.com" None
           (double.issuer "chain") double.client "csr for somename.com"
           "somename.com"); reflexivity.
Defined.

(** X9.  One call of [Issue] never repeats a call to the outside: it
    dials at most once and only without a client, then sends at most
    one sign request, then pairs a key at most once, in this order, and
    it pairs a key only after a request was sent. *)
Theorem Issue_calls_once_in_order E ctx commonName conf w :
  exists dial sign pair,
    trace (snd (Issue E ctx commonName conf w)) = trace w ++ dial ++ sign ++ pair /\
    (length dial <= 1)%nat /\ (length sign <= 1)%nat /\ (length pair <= 1)%nat /\
    forallb is_Dial dial = true /\
    forallb is_Send sign = true /\
    forallb is_Pair pair = true /\
    (pair = [] \/ sign <> []) /\
    (dial = [] \/ cli (self w) = None).
Proof.
  destruct (Issue_run E ctx commonName conf w)
    as (_ & _ & dial & sign & pair & Ht & Hd & Hs).
  exists dial, sign, pair. split; [exact Ht|].
  assert (Hdial : (length dial <= 1)%nat /\ forallb is_Dial dial = true /\
                  (dial = [] \/ cli (self w) = None)).
  { destruct Hd as [->|(Hn & cf & ->)]; cbn; auto. }
  assert (Hrest : (length sign <= 1)%nat /\ (length pair <= 1)%nat /\
                  forallb is_Send sign = true /\ forallb is_Pair pair = true /\
                  (pair = [] \/ sign <> [])).
  { destruct Hs as [[-> ->]|(c & csrPEM & keyPEM & buf & _ & _ & _ & -> &
                              [->|(b & -> & _)])]; cbn; repeat split; auto;
      right; discriminate. }
  tauto.
Qed.

(** X10.  A secret returned without an error whose [certificate] entry
    is missing or is not a string makes [Issue] panic on the type
    assertion of line 106; no key is paired. *)
Theorem Issue_missing_certificate_panics E ctx commonName conf w c csrPEM keyPEM s :
  cli (self w) = Some c ->
  csr_FromCertConfig E commonName conf = inl (csrPEM, keyPEM) ->
  fst (signCSR E (self w) ctx (sign_opts (self w) commonName csrPEM) w)
    = Returned (Some s, None) ->
  (forall leaf, api.Data s !! "certificate" <> Some (VString leaf)) ->
  Issue E ctx commonName conf w =
  (Panicked InterfaceConversion,
   snd (signCSR E (self w) ctx (sign_opts (self w) commonName csrPEM) w)).
Proof.
  intros Hc Hcsr Hs Hleaf.
  rewrite (Issue_signed _ _ _ _ _ _ _ _ _ Hc Hcsr Hs). unfold issue_from_secret.
  destruct (api.Data s !! "certificate") as [[| | |leaf| |]|]; try reflexivity.
  now destruct (Hleaf leaf).
Qed.

Lemma Issue_missing_certificate_panics_witness :
  Issue (faults.answering double.no_content) ctx_Background "somename.com" None
    (double.issuer "chain")
  = (Panicked InterfaceConversion,
     snd (signCSR (faults.answering double.no_content) (self (double.issuer "chain"))
            ctx_Background
            (sign_opts (self (double.issuer "chain")) "somename.com"
               "csr for somename.com")
            (double.issuer "chain"))).
Proof.
  apply (Issue_missing_certificate_panics (faults.answering double.no_content)
           ctx_Background "somename.com" None (double.issuer "chain") double.client
           "csr for somename.com" "somename.com" double.no_content);
    try reflexivity.
  intros leaf. vm_compute. discriminate.
Defined.

(** X11.  A [ca_chain] entry that is not a sequence of strings (JSON
    null, a string, a sequence with a non-string member) makes [Issue]
    panic, whatever [issuing_ca] holds: the second branch is not a
    fallback for a malformed first one. *)
Theorem Issue_malformed_chain_panics E ctx commonName conf w c csrPEM keyPEM s leaf x :
  cli (self w) = Some c ->
  csr_FromCertConfig E commonName conf = inl (csrPEM, keyPEM) ->
  fst (signCSR E (self w) ctx (sign_opts (self w) commonName csrPEM) w)
    = Returned (Some s, None) ->
  api.Data s !! "certificate" = Some (VString leaf) ->
  api.Data s !! "ca_chain" = Some x ->
  as_strings x = None ->
  Issue E ctx commonName conf w =
  (Panicked InterfaceConversion,
   snd (signCSR E (self w) ctx (sign_opts (self w) commonName csrPEM) w)).
Proof.
  intros Hc Hcsr Hs Hleaf Hchain Hx.
  rewrite (Issue_signed _ _ _ _ _ _ _ _ _ Hc Hcsr Hs), issue_from_secret_eq.
  unfold chain_resolution. rewrite Hleaf, Hchain. cbn. now rewrite Hx.
Qed.

Lemma Issue_malformed_chain_panics_witness :
  Issue (faults.answering faults.null_chain) ctx_Background "somename.com" None
    (double.issuer "chain")
  = (Panicked InterfaceConversion,
     snd (signCSR (faults.answering faults.null_chain) (self (double.issuer "chain"))
            ctx_Background
            (sign_opts (self (double.issuer "chain")) "somename.com"
               "csr for somename.com")
            (double.issuer "chain"))).
Proof.
  apply (Issue_malformed_chain_panics (faults.answering faults.null_chain)
           ctx_Background "somename.com" None (double.issuer "chain") double.client
           "csr for somename.com" "somename.com" faults.null_chain
           double.leaf_pem VNil); vm_compute; reflexivity.
Defined.

(** X12.  An empty [ca_chain] sequence still takes the first branch: the
    text paired with the key is the leaf alone, and [issuing_ca] is not
    consulted. *)
Theorem Issue_empty_chain E ctx commonName conf w c csrPEM keyPEM s leaf :
  cli (self w) = Some c ->
  csr_FromCertConfig E commonName conf = inl (csrPEM, keyPEM) ->
  fst (signCSR E (self w) ctx (sign_opts (self w) commonName csrPEM) w)
    = Returned (Some s, None) ->
  api.Data s !! "certificate" = Some (VString leaf) ->
  api.Data s !! "ca_chain" = Some (VSlice []) ->
  fst (Issue E ctx commonName conf w) = key_pair_result E leaf keyPEM /\
  trace (snd (Issue E ctx commonName conf w)) =
    trace (snd (signCSR E (self w) ctx (sign_opts (self w) commonName csrPEM) w))
    ++ [Pair leaf keyPEM].
Proof.
  intros Hc Hcsr Hs Hleaf Hchain.
  rewrite (Issue_signed _ _ _ _ _ _ _ _ _ Hc Hcsr Hs), issue_from_secret_eq.
  unfold chain_resolution. rewrite Hleaf, Hchain. cbn. auto.
Qed.

Lemma Issue_empty_chain_witness :
  fst (Issue (faults.answering faults.empty_chain) ctx_Background "somename.com" None
         (double.issuer "chain"))
    = key_pair_result (faults.answering faults.empty_chain) double.leaf_pem
        "somename.com" /\
  trace (snd (Issue (faults.answering faults.empty_chain) ctx_Background
                "somename.com" None (double.issuer "chain")))
    = trace (snd (signCSR (faults.answering faults.empty_chain)
                    (self (double.issuer "chain")) ctx_Background
                    (sign_opts (self (double.issuer "chain")) "somename.com"
                       "csr for somename.com")
                    (double.issuer "chain")))
      ++ [Pair double.leaf_pem "somename.com"].
Proof.
  apply (Issue_empty_chain (faults.answering faults.empty_chain)
           ctx_Background "somename.com" None (double.issuer "chain") double.client
           "csr for somename.com" "somename.com" faults.empty_chain);
    vm_compute; reflexivity.
Defined.

(** The certificate of the empty-chain answer has the leaf alone. *)
Example Issue_empty_chain_double :
  fst (Issue (faults.answering faults.empty_chain) ctx_Background "somename.com" None
         (double.issuer "chain"))
  = Returned (Some (double.issued ["somename.com"]), None).
Proof. vm_compute. reflexivity. Qed.

(** X13.  What [Issue] returns is the certificate [tls.X509KeyPair]
    returned, chain and private key untouched, with only the leaf set:
    to the parse of the first chain entry, or to nil when that parse
    fails, in which case the parse error is dropped and [Issue] still
    returns the certificate and no error. *)
Theorem Issue_returns_the_key_pair E ctx commonName conf w c csrPEM keyPEM s
  entries tlsCert der more :
  cli (self w) = Some c ->
  csr_FromCertConfig E commonName conf = inl (csrPEM, keyPEM) ->
  fst (signCSR E (self w) ctx (sign_opts (self w) commonName csrPEM) w)
    = Returned (Some s, None) ->
  chain_resolution (api.Data s) = Some entries ->
  tls_X509KeyPair E (join_pem entries) keyPEM = inl tlsCert ->
  tls.Certificate tlsCert = der :: more ->
  exists cert,
    fst (Issue E ctx commonName conf w) = Returned (Some cert, None) /\
    tls.Certificate cert = tls.Certificate tlsCert /\
    tls.PrivateKey cert = tls.PrivateKey tlsCert /\
    tls.Leaf cert = match x509_ParseCertificate E der with
                    | inl leaf => Some leaf
                    | inr _ => None
                    end.
Proof.
  intros Hc Hcsr Hs Hr Hx Hd.
  rewrite (Issue_signed _ _ _ _ _ _ _ _ _ Hc Hcsr Hs), issue_from_secret_eq, Hr.
  cbn [fst]. unfold key_pair_result. rewrite Hx, Hd.
  eexists. split; [reflexivity|].
  cbn [tls.with_Leaf tls.Certificate tls.PrivateKey tls.Leaf].
  split; [exact Hd|]. split; reflexivity.
Qed.

Lemma Issue_returns_the_key_pair_witness :
  exists cert,
    fst (Issue faults.unparsed_leaf ctx_Background "somename.com" None
           (double.issuer "chain")) = Returned (Some cert, None) /\
    tls.Certificate cert = ["somename.com"; "Certify Test Cert"] /\
    tls.PrivateKey cert = "somename.com" /\
    tls.Leaf cert = match x509_ParseCertificate faults.unparsed_leaf "somename.com" with
                    | inl leaf => Some leaf
                    | inr _ => None
                    end.
Proof.
  apply (Issue_returns_the_key_pair faults.unparsed_leaf ctx_Background
           "somename.com" None (double.issuer "chain") double.client
           "csr for somename.com" "somename.com" double.with_chain
           [double.leaf_pem; double.ca_pem]
           {| tls.Certificate := ["somename.com"; "Certify Test Cert"];
              tls.PrivateKey := "somename.com"; tls.Leaf := None |}
           "somename.com" ["Certify Test Cert"]); vm_compute; reflexivity.
Defined.

(** With a parser that rejects the leaf, the certificate comes back
    with a nil leaf and no error. *)
Example Issue_unparsed_leaf_double :
  fst (Issue faults.unparsed_leaf ctx_Background "somename.com" None
         (double.issuer "chain"))
  = Returned (Some {| tls.Certificate := ["somename.com"; "Certify Test Cert"];
                      tls.PrivateKey := "somename.com"; tls.Leaf := None |}, None).
Proof. vm_compute. reflexivity. Qed.

(** X14.  On an issuer that has a client, every request [Issue] sends
    carries that client's token and goes to that client's address: the
    issuer's own Token and URL play no part, and an issuer made by
    [FromClient] always signs at [/v1/pki/sign/<role>]. *)
Theorem Issue_uses_the_client E ctx commonName conf w c events r :
  cli (self w) = Some c ->
  trace (snd (Issue E ctx commonName conf w)) = trace w ++ events ->
  In (Send r) events ->
  api.ClientToken r = api.token c /\
  api.Host r = api.addr c /\
  (forall role, self w = FromClient (Some c) role ->
                api.Path r = "/v1/pki/sign/" +:+ role).
Proof.
  intros Hc Ht Hin.
  destruct (Issue_run E ctx commonName conf w)
    as (_ & Hcli & dial & sign & pair & Ht' & Hd & Hs).
  rewrite Ht in Ht'. apply new_events in Ht'. subst events.
  specialize (Hcli c Hc).
  destruct Hd as [->|(Hn & _)]; [|congruence]. cbn [app] in Hin.
  destruct Hs as [[-> ->]|(c' & csrPEM & keyPEM & buf & Hc' & _ & _ & -> &
                            [->|(b & -> & _)])];
    simpl in Hin;
    repeat match goal with
           | H : _ \/ _ |- _ => destruct H
           | H : False |- _ => destruct H
           end;
    try discriminate;
    match goal with H : Send _ = Send r |- _ => injection H as <- end;
    rewrite Hcli in Hc'; injection Hc' as <-;
    (split; [reflexivity|]; split; [reflexivity|];
     intros role Hself; cbn [sign_request api.Path];
     rewrite mount_name_eqb, Hself; reflexivity).
Qed.

Lemma Issue_uses_the_client_witness :
  api.ClientToken
    (sign_request (self (double.issuer "chain")) double.client
       (sign_opts (self (double.issuer "chain")) "somename.com" "csr for somename.com")
       "csr for somename.com") = api.token double.client /\
  api.Host
    (sign_request (self (double.issuer "chain")) double.client
       (sign_opts (self (double.issuer "chain")) "somename.com" "csr for somename.com")
       "csr for somename.com") = api.addr double.client /\
  (forall role, self (double.issuer "chain") = FromClient (Some double.client) role ->
     api.Path
       (sign_request (self (double.issuer "chain")) double.client
          (sign_opts (self (double.issuer "chain")) "somename.com"
             "csr for somename.com")
          "csr for somename.com") = "/v1/pki/sign/" +:+ role).
Proof.
  apply (Issue_uses_the_client double.env ctx_Background "somename.com" None
           (double.issuer "chain") double.client
           [Send (sign_request (self (double.issuer "chain")) double.client
                    (sign_opts (self (double.issuer "chain")) "somename.com"
                       "csr for somename.com") "csr for somename.com");
            Pair (double.leaf_pem +:+ newline +:+ double.ca_pem) "somename.com"]).
  - reflexivity.
  - vm_compute. reflexivity.
  - left. reflexivity.
Defined.

(** X15.  On an issuer without a client, every request [Issue] sends
    carries the issuer's Token and goes to the address of the client
    that the same call obtained from [api.NewClient] for the issuer's
    URL. *)
Theorem Issue_lazy_session_request E ctx commonName conf w events r :
  cli (self w) = None ->
  trace (snd (Issue E ctx commonName conf w)) = trace w ++ events ->
  In (Send r) events ->
  api.ClientToken r = Token (self w) /\
  exists dialled c0,
    In (Dial dialled) events /\
    URL (self w) = Some (api.Address dialled) /\
    api_NewClient E dialled = inl c0 /\
    api.Host r = api.addr c0.
Proof.
  intros Hc Ht Hin.
  destruct (Issue_run E ctx commonName conf w)
    as (_ & _ & dial & sign & pair & Ht' & Hd & Hs).
  rewrite Ht in Ht'. apply new_events in Ht'. subst events.
  (* a request was sent, so there is a client in the end *)
  assert (Hsent : exists c csrPEM buf,
             cli (self (snd (Issue E ctx commonName conf w))) = Some c /\
             r = sign_request (self w) c (sign_opts (self w) commonName csrPEM) buf).
  { destruct Hd as [->|(_ & cf & ->)];
      destruct Hs as [[-> ->]|(c' & csrPEM & keyPEM & buf & Hc' & _ & _ & -> &
                                [->|(b & -> & _)])];
      simpl in Hin;
      repeat match goal with
             | H : _ \/ _ |- _ => destruct H
             | H : False |- _ => destruct H
             end;
      try discriminate;
      match goal with H : Send _ = Send r |- _ => injection H as <- end; eauto. }
  destruct Hsent as (c & csrPEM & buf & Hfinal & ->).
  (* and it is the one connect left *)
  rewrite Issue_eq, Hc in Hfinal, Ht.
  pose proof (connect_establishes_session E ctx w) as Hconn.
  destruct (connect_run E ctx w) as [_ Hrun].
  destruct (connect E ctx w) as [[[e|]|p] w1]; cbn [fst snd] in *.
  - destruct Hrun as [[_ [p Hp]]|(cf & _ & [[Hn _]|[_ Hnone]])];
      try discriminate; congruence.
  - destruct (Hconn eq_refl) as (url & cf & c0 & Hurl & Haddr & _ & Hnew & Hcli & _ & Htr).
    destruct (issue_with_session_run E ctx commonName conf w1)
      as (Hself & sign' & pair' & Ht1 & _).
    rewrite Hself, Hcli in Hfinal. injection Hfinal as <-.
    split; [reflexivity|]. exists cf, c0.
    rewrite Ht1, Htr, <- app_assoc in Ht. apply new_events in Ht.
    split; [rewrite <- Ht; now left|].
    split; [now rewrite Hurl, Haddr|]. split; [exact Hnew | reflexivity].
  - destruct Hrun as [[Htr _]|(cf & Htr & [[Hn _]|[[e He] _]])]; try discriminate.
    rewrite Htr, <- (app_nil_r (trace w)) in Ht at 1.
    apply new_events in Ht. rewrite <- Ht in Hin. destruct Hin.
Qed.

Lemma Issue_lazy_session_request_witness :
  api.ClientToken double.request = Token (self (double.fresh "chain")) /\
  exists dialled c0,
    In (Dial dialled)
       [Dial {| api.Address := "https://vault.example"; api.TLSClientConfig := None |};
        Send double.request;
        Pair (double.leaf_pem +:+ newline +:+ double.ca_pem) "somename.com"] /\
    URL (self (double.fresh "chain")) = Some (api.Address dialled) /\
    api_NewClient double.env dialled = inl c0 /\
    api.Host double.request = api.addr c0.
Proof.
  apply (Issue_lazy_session_request double.env ctx_Background "somename.com" None
           (double.fresh "chain")).
  - reflexivity.
  - vm_compute. reflexivity.
  - right. left. reflexivity.
Defined.

(** X16.  Over calls run one after another, each call dials at most
    once, and once the issuer holds a client no later call dials at
    all: a session that was established is reused. *)
Theorem run_calls_dials E calls : forall w,
  (dials (run_calls E calls w) <= dials w + length calls)%nat /\
  (cli (self w) = None \/ dials (run_calls E calls w) = dials w).
Proof.
  induction calls as [|c calls IH]; intros w.
  - cbn. split; [lia|]. now right.
  - change (run_calls E (c :: calls) w) with (run_calls E calls (run_call E c w)).
    destruct (IH (run_call E c w)) as [Hle Hsame].
    destruct (Issue_dials E (call_ctx c) (call_commonName c) (call_conf c) w)
      as [H1 H2].
    destruct (Issue_run E (call_ctx c) (call_commonName c) (call_conf c) w)
      as (_ & Hcli & _).
    fold (run_call E c w) in H1, H2, Hcli. cbn [length]. split; [lia|].
    destruct (cli (self w)) as [c0|] eqn:Hc; [right | now left].
    destruct H2 as [H2|H2]; [discriminate|].
    destruct Hsame as [Hn|Hsame]; [|lia].
    rewrite (Hcli c0 eq_refl) in Hn. discriminate.
Qed.

(** A fresh issuer serves three calls with one dial. *)
Example run_calls_dials_double :
  dials (run_calls double.env
           [ {| call_ctx := ctx_Background; call_commonName := "somename.com";
                call_conf := None |};
             {| call_ctx := ctx_Background; call_commonName := "other.com";
                call_conf := None |};
             {| call_ctx := ctx_Canceled; call_commonName := "somename.com";
                call_conf := None |} ]
           (double.fresh "chain")) = 1%nat.
Proof. vm_compute. reflexivity. Qed.

(** X17.  A 404 answer that comes without an error and whose body
    parses to a secret with neither warnings nor data is parsed a second
    time, from where the first parse stopped reading the body; what that
    second parse gives is what [signCSR] returns. *)
Theorem signCSR_not_found_parses_again E v ctx opts w c buf rsp secret unread :
  cli v = Some c ->
  json_Marshal E opts = inl buf ->
  api_RawRequestWithContext E c ctx (sign_request v c opts buf) = (Some rsp, None) ->
  api.StatusCode rsp = 404 ->
  api_ParseSecret E (api.Body rsp) = ((secret, None), unread) ->
  has_warnings_or_data secret = false ->
  fst (signCSR E v ctx opts w) = Returned (fst (api_ParseSecret E unread)).
Proof.
  intros Hc Hj Hraw Hst Hparse Hs.
  rewrite (signCSR_eq _ _ _ _ _ _ _ Hc Hj), Hraw. cbn [fst].
  unfold sign_reply. now rewrite Hst, Hparse, Hs.
Qed.

Lemma signCSR_not_found_parses_again_witness :
  fst (signCSR (faults.replying 404 "{}" None) (self (double.issuer "chain"))
         ctx_Background
         (sign_opts (self (double.issuer "chain")) "somename.com" "csr")
         (double.issuer "chain"))
  = Returned (fst (api_ParseSecret (faults.replying 404 "{}" None) "")).
Proof.
  apply (signCSR_not_found_parses_again (faults.replying 404 "{}" None)
           (self (double.issuer "chain")) ctx_Background
           (sign_opts (self (double.issuer "chain")) "somename.com" "csr")
           (double.issuer "chain") double.client "csr"
           {| api.StatusCode := 404; api.Body := "{}" |} (Some double.no_content) "");
    reflexivity.
Defined.

(** The second parse finds the body used up: the call ends in [io.EOF]. *)
Example signCSR_not_found_parses_again_double :
  fst (Issue (faults.replying 404 "{}" None) ctx_Background "somename.com" None
         (double.issuer "chain"))
  = Returned (None, Some io_EOF).
Proof. vm_compute. reflexivity. Qed.

Lemma signCSR_panic E v ctx opts w p :
  fst (signCSR E v ctx opts w) = Panicked p -> p = NilDereference.
Proof.
  destruct (cli v) as [c|] eqn:Hc.
  - destruct (json_Marshal E opts) as [buf|e] eqn:Hj.
    + rewrite (signCSR_eq _ _ _ _ _ _ _ Hc Hj).
      destruct (api_RawRequestWithContext E c ctx _) as [resp err]. cbn [fst].
      unfold sign_reply.
      repeat split_match; intros H; try discriminate H; now injection H.
    + unfold signCSR, SetJSONBody. rewrite Hc, Hj. discriminate.
  - unfold signCSR. rewrite Hc. cbn. now intros [= <-].
Qed.

Lemma connect_panic E ctx w p :
  fst (connect E ctx w) = Panicked p -> p = NilDereference.
Proof.
  unfold connect. go. destruct (URL (self w)); go.
  - destruct (api_NewClient E _); discriminate.
  - now intros [= <-].
Qed.

(** X18.  With [tls.X509KeyPair] returning a chain whose first
    certificate parses whenever it succeeds, the index of line 122 is
    always in range: no call of [Issue] panics with an index out of
    range. *)
Theorem Issue_index_in_range E ctx commonName conf w :
  X509KeyPair_checks_pair E ->
  fst (Issue E ctx commonName conf w) <> Panicked IndexOutOfRange.
Proof.
  intros Hpair H.
  assert (Hsession : forall w1,
            fst (issue_with_session E ctx commonName conf w1)
            <> Panicked IndexOutOfRange).
  { intros w1. rewrite issue_with_session_eq.
    destruct (csr_FromCertConfig E commonName conf) as [[csrPEM keyPEM]|e];
      [|discriminate].
    pose proof (signCSR_panic E (self w1) ctx (sign_opts (self w1) commonName csrPEM) w1)
      as Hp.
    destruct (signCSR E (self w1) ctx _ w1) as [[[[s|] [e|]]|p] w2]; cbn [fst] in *;
      try discriminate.
    - rewrite issue_from_secret_eq.
      destruct (chain_resolution (api.Data s)); cbn [fst]; [|discriminate].
      unfold key_pair_result.
      destruct (tls_X509KeyPair E _ keyPEM) as [c0|e] eqn:Hx; [|discriminate].
      destruct (Hpair _ _ _ Hx) as (der & more & leaf & Hc & _).
      rewrite Hc. discriminate.
    - intros [= ->]. specialize (Hp _ eq_refl). discriminate. }
  rewrite Issue_eq in H. destruct (cli (self w)).
  - exact (Hsession w H).
  - pose proof (connect_panic E ctx w) as Hp.
    destruct (connect E ctx w) as [[[e|]|p] w1]; cbn [fst] in *.
    + discriminate.
    + exact (Hsession w1 H).
    + injection H as ->. specialize (Hp _ eq_refl). discriminate.
Qed.

Lemma Issue_index_in_range_witness :
  fst (Issue double.env ctx_Background "somename.com" None (double.issuer "chain"))
  <> Panicked IndexOutOfRange.
Proof.
  apply (Issue_index_in_range double.env ctx_Background "somename.com" None
           (double.issuer "chain")).
  exact double_checks_pair.
Defined.

Lemma sched_step_same_config E s i :
  same_config (self (shared s)) (self (shared (sched_step E s i))).
Proof.
  unfold sched_step. destruct (threads s !! i) as [l|]; [|apply same_config_refl].
  destruct (thread_step E l (shared s)) as [l' w'] eqn:Hstep. cbn [shared].
  unfold thread_step in Hstep.
  destruct l;
    repeat match type of Hstep with
           | context [match ?x with _ => _ end] => destruct x
           end;
    injection Hstep as <- <-; repeat split.
Qed.

(** X19.  Concurrent calls, under any schedule and whatever they dial,
    leave URL, Token, Mount, Role, TLSConfig, TimeToLive and
    OtherSubjectAlternativeNames of the shared issuer as they were: the
    only shared field a first call writes is the client. *)
Theorem run_schedule_keeps_configuration E schedule : forall s,
  URL (self (shared (run_schedule E schedule s))) = URL (self (shared s)) /\
  Token (self (shared (run_schedule E schedule s))) = Token (self (shared s)) /\
  Mount (self (shared (run_schedule E schedule s))) = Mount (self (shared s)) /\
  Role (self (shared (run_schedule E schedule s))) = Role (self (shared s)) /\
  TLSConfig (self (shared (run_schedule E schedule s))) = TLSConfig (self (shared s)) /\
  TimeToLive (self (shared (run_schedule E schedule s)))
    = TimeToLive (self (shared s)) /\
  OtherSubjectAlternativeNames (self (shared (run_schedule E schedule s)))
    = OtherSubjectAlternativeNames (self (shared s)).
Proof.
  induction schedule as [|i schedule IH]; intros s; [repeat split|].
  change (run_schedule E (i :: schedule) s)
    with (run_schedule E schedule (sched_step E s i)).
  pose proof (IH (sched_step E s i)) as H.
  pose proof (sched_step_same_config E s i) as H0.
  unfold same_config in H0. intuition congruence.
Qed.
